(** * libsddc: the device handle and its hardware-control state machine

    A shallow embedding of [libsddc.c] (with the declarations of
    [libsddc.h]): the handle record [sddc_t], [sddc_open], the RF-mode
    switch, the attenuation and gain setters, the tuner attenuation tables,
    and the start/stop streaming sequences.

    - A C [double] is a binary64 primitive float; the comparisons and the
      arithmetic are the IEEE ones.
    - The USB transport ([usb_device_*]) and the streaming engine
      ([streaming_*]) are external: every call the library makes is appended
      to a trace, and its return value is read from an environment that sees
      the history of calls.
    - What [fprintf(stderr, ...)] prints is appended to a second log.
    - A function that mutates [*this] takes the handle and returns the new
      one next to its [int] result. *)

From Stdlib Require Import ZArith List Bool Lia String.
From Stdlib Require Import Floats.
Import ListNotations.

Set Warnings "-inexact-float".
Local Open Scope Z_scope.

(** ** C numbers *)

Definition double := float.
Bind Scope float_scope with double.

Module Cast.

(** The integer types a [double] is converted to in [libsddc.c]. *)
Inductive ctype := c_int | c_uint16 | c_uint32 | c_uint64.

Definition min_of (t : ctype) : Z :=
  match t with
  | c_int => - 2 ^ 31
  | _ => 0
  end.

Definition max_of (t : ctype) : Z :=
  match t with
  | c_int => 2 ^ 31 - 1
  | c_uint16 => 2 ^ 16 - 1
  | c_uint32 => 2 ^ 32 - 1
  | c_uint64 => 2 ^ 64 - 1
  end.

(** The integral part of a finite value (its fraction discarded, that is,
    truncation toward zero); [None] for an infinity or a NaN. *)
Definition SFtrunc (x : spec_float) : option Z :=
  match x with
  | S754_zero _ => Some 0
  | S754_finite s m e => Some (cond_Zopp s (Z.shiftl (Z.pos m) e))
  | S754_infinity _ => None
  | S754_nan => None
  end.

Definition trunc (x : double) : option Z := SFtrunc (Prim2SF x).

(** Rounding to the nearest integer, halves away from zero (C's [round]). *)
Definition SFround (x : spec_float) : option Z :=
  match x with
  | S754_zero _ => Some 0
  | S754_finite s m e =>
      Some (cond_Zopp s (Z.shiftr (Z.shiftl (Z.pos m) (e + 1) + 1) 1))
  | S754_infinity _ => None
  | S754_nan => None
  end.

Definition round (x : double) : option Z := SFround (Prim2SF x).

(** [int] to [double]: exact for every 32-bit value. *)
Definition of_int (z : Z) : double :=
  SF2Prim (binary_normalize prec emax z 0 false).

(** Wrap-around of an integer stored into [uint16_t] or [uint8_t]. *)
Definition to_uint16 (z : Z) : Z := z mod 2 ^ 16.
Definition to_uint8 (z : Z) : Z := z mod 2 ^ 8.

Section Conversion.

(** C leaves the conversion of a [double] whose integral part does not
    fit the target type (or of an infinity or a NaN) undefined.  What the
    platform yields there is a parameter. *)
Variable undefined_conversion : ctype -> double -> Z.

Definition of_double (t : ctype) (x : double) : Z :=
  match trunc x with
  | Some z =>
      if (min_of t <=? z) && (z <=? max_of t) then z
      else undefined_conversion t x
  | None => undefined_conversion t x
  end.

End Conversion.

End Cast.

(** ** Declarations of [libsddc.h] *)

Inductive SDDCStatus :=
| SDDC_STATUS_OFF
| SDDC_STATUS_READY
| SDDC_STATUS_STREAMING
| SDDC_STATUS_FAILED.

Definition SDDCStatus_eqb (a b : SDDCStatus) : bool :=
  match a, b with
  | SDDC_STATUS_OFF, SDDC_STATUS_OFF
  | SDDC_STATUS_READY, SDDC_STATUS_READY
  | SDDC_STATUS_STREAMING, SDDC_STATUS_STREAMING
  | SDDC_STATUS_FAILED, SDDC_STATUS_FAILED => true
  | _, _ => false
  end.

(** [enum SDDCHWModel]: [sddc_open] casts the first reply byte to it, so a
    handle can hold any value of [0..255]. *)
Definition SDDCHWModel := Z.
Definition HW_NORADIO : SDDCHWModel := 0.
Definition HW_BBRF103 : SDDCHWModel := 1.
Definition HW_HF103 : SDDCHWModel := 2.
Definition HW_RX888 : SDDCHWModel := 3.
Definition HW_RX888R2 : SDDCHWModel := 4.
Definition HW_RX999 : SDDCHWModel := 5.

Inductive RFMode :=
| NO_RF_MODE
| HF_MODE
| VHF_MODE.

Definition RFMode_eqb (a b : RFMode) : bool :=
  match a, b with
  | NO_RF_MODE, NO_RF_MODE | HF_MODE, HF_MODE | VHF_MODE, VHF_MODE => true
  | _, _ => false
  end.

(** Modelled from the spec: the macros [AD8370_HIGH_MODE], [AD8370_LOW_MODE]
    and [AD8370_GAIN_SWEET_POINT] that [sddc_set_hf_vga_gain] uses are not
    declared under these names in the sources at hand ([libsddc.h] spells
    them [AD4370_HIGH_MODE], [AD8340_LOW_MODE], [AD8340_GAIN_SWEET_POINT]).
    The sweet point is index 18; the high and low mode bits take the values
    of the header. *)
Definition AD8370_HIGH_MODE : Z := 0x80.
Definition AD8370_LOW_MODE : Z := 0x00.
Definition AD8370_GAIN_SWEET_POINT : Z := 18.

(** ** Constants of [libsddc.c] *)

Definition GPIO_ADC_SHDN : Z := 0x0020.
Definition GPIO_ADC_DITH : Z := 0x0040.
Definition GPIO_ADC_RAND : Z := 0x0080.
Definition GPIO_BIAS_HF : Z := 0x0100.
Definition GPIO_BIAS_VHF : Z := 0x0200.
Definition GPIO_LED_YELLOW : Z := 0x0400.
Definition GPIO_LED_RED : Z := 0x0800.
Definition GPIO_LED_BLUE : Z := 0x1000.
Definition GPIO_ATT_SEL0 : Z := 0x2000.
Definition GPIO_ATT_SEL1 : Z := 0x4000.
Definition GPIO_VHF_EN : Z := 0x8000.

Definition FW_REG_R82XX_ATTENUATOR : Z := 0x01.
Definition FW_REG_R82XX_VGA : Z := 0x02.
Definition FW_REG_R82XX_SIDEBAND : Z := 0x03.
Definition FW_REG_R82XX_HARMONIC : Z := 0x04.
Definition FW_REG_DAT31_ATT : Z := 0x0a.
Definition FW_REG_AD8370_VGA : Z := 0x0b.
Definition FW_REG_PRESELECTOR : Z := 0x0c.

Definition DEFAULT_SAMPLE_RATE : double := 64e6%float.
Definition DEFAULT_TUNER_FREQUENCY : double := 999e3%float.
Definition DEFAULT_FREQ_CORR_PPM : double := 0.0%float.
Definition DEFAULT_HF_ATTENUATION : double := 0%float.
Definition DEFAULT_TUNER_ATTENUATION : double := 0%float.
Definition TUNER_CLOCK : double := 32E6%float.

(** tuner attenuations - LNA/mixer *)
Definition tuner_rf_attenuations_table : list double :=
  [ 0.0; 0.9; 1.4; 2.7; 3.7; 7.7; 8.7; 12.5; 14.4; 15.7; 16.6; 19.7; 20.7;
    22.9; 25.4; 28.0; 29.7; 32.8; 33.8; 36.4; 37.2; 38.6; 40.2; 42.1; 43.4;
    43.9; 44.5; 48.0; 49.6 ]%float.

(** tuner attenuations - VGA *)
Definition tuner_if_attenuations_table : list double :=
  [ -4.7; -2.1; 0.5; 3.5; 7.7; 11.2; 13.6; 14.9; 16.3; 19.5; 23.1; 26.5;
    30.0; 33.7; 37.2; 40.8 ]%float.

(** ** The handle *)

(** Pointers are addresses, [0] the null pointer. *)
Definition pointer := Z.

Record sddc_t := mk_sddc {
  status : SDDCStatus;
  model : SDDCHWModel;
  firmware : Z;
  rf_mode : RFMode;
  usb_device : pointer;
  streaming : pointer;
  has_clock_source : Z;
  has_vhf_tuner : Z;
  hf_attenuator_levels : Z;
  hf_vga_levels : Z;
  hf_attenuation : double;
  hf_vga_gain : Z;
  sample_rate : double;
  tuner_frequency : double;
  tuner_attenuation : double;
  tuner_clock : double;
  freq_corr_ppm : double;
  frequency_range : double * double
}.

(** Assignments to a field of [*this]. *)
Definition set_status (v : SDDCStatus) (this : sddc_t) : sddc_t :=
  mk_sddc v (model this) (firmware this) (rf_mode this) (usb_device this)
    (streaming this) (has_clock_source this) (has_vhf_tuner this)
    (hf_attenuator_levels this) (hf_vga_levels this) (hf_attenuation this)
    (hf_vga_gain this) (sample_rate this) (tuner_frequency this)
    (tuner_attenuation this) (tuner_clock this) (freq_corr_ppm this)
    (frequency_range this).

Definition set_rf_mode (v : RFMode) (this : sddc_t) : sddc_t :=
  mk_sddc (status this) (model this) (firmware this) v (usb_device this)
    (streaming this) (has_clock_source this) (has_vhf_tuner this)
    (hf_attenuator_levels this) (hf_vga_levels this) (hf_attenuation this)
    (hf_vga_gain this) (sample_rate this) (tuner_frequency this)
    (tuner_attenuation this) (tuner_clock this) (freq_corr_ppm this)
    (frequency_range this).

Definition set_streaming (v : pointer) (this : sddc_t) : sddc_t :=
  mk_sddc (status this) (model this) (firmware this) (rf_mode this)
    (usb_device this) v (has_clock_source this) (has_vhf_tuner this)
    (hf_attenuator_levels this) (hf_vga_levels this) (hf_attenuation this)
    (hf_vga_gain this) (sample_rate this) (tuner_frequency this)
    (tuner_attenuation this) (tuner_clock this) (freq_corr_ppm this)
    (frequency_range this).

Definition set_hf_attenuation (v : double) (this : sddc_t) : sddc_t :=
  mk_sddc (status this) (model this) (firmware this) (rf_mode this)
    (usb_device this) (streaming this) (has_clock_source this)
    (has_vhf_tuner this) (hf_attenuator_levels this) (hf_vga_levels this) v
    (hf_vga_gain this) (sample_rate this) (tuner_frequency this)
    (tuner_attenuation this) (tuner_clock this) (freq_corr_ppm this)
    (frequency_range this).

Definition set_hf_vga_gain (v : Z) (this : sddc_t) : sddc_t :=
  mk_sddc (status this) (model this) (firmware this) (rf_mode this)
    (usb_device this) (streaming this) (has_clock_source this)
    (has_vhf_tuner this) (hf_attenuator_levels this) (hf_vga_levels this)
    (hf_attenuation this) v (sample_rate this) (tuner_frequency this)
    (tuner_attenuation this) (tuner_clock this) (freq_corr_ppm this)
    (frequency_range this).

Definition set_sample_rate (v : double) (this : sddc_t) : sddc_t :=
  mk_sddc (status this) (model this) (firmware this) (rf_mode this)
    (usb_device this) (streaming this) (has_clock_source this)
    (has_vhf_tuner this) (hf_attenuator_levels this) (hf_vga_levels this)
    (hf_attenuation this) (hf_vga_gain this) v (tuner_frequency this)
    (tuner_attenuation this) (tuner_clock this) (freq_corr_ppm this)
    (frequency_range this).

Definition set_tuner_frequency (v : double) (this : sddc_t) : sddc_t :=
  mk_sddc (status this) (model this) (firmware this) (rf_mode this)
    (usb_device this) (streaming this) (has_clock_source this)
    (has_vhf_tuner this) (hf_attenuator_levels this) (hf_vga_levels this)
    (hf_attenuation this) (hf_vga_gain this) (sample_rate this) v
    (tuner_attenuation this) (tuner_clock this) (freq_corr_ppm this)
    (frequency_range this).

Definition set_freq_corr_ppm (v : double) (this : sddc_t) : sddc_t :=
  mk_sddc (status this) (model this) (firmware this) (rf_mode this)
    (usb_device this) (streaming this) (has_clock_source this)
    (has_vhf_tuner this) (hf_attenuator_levels this) (hf_vga_levels this)
    (hf_attenuation this) (hf_vga_gain this) (sample_rate this)
    (tuner_frequency this) (tuner_attenuation this) (tuner_clock this) v
    (frequency_range this).

(** ** The outside world *)

(** Vendor requests of the firmware ([usb_device.h], not among the sources;
    only their names matter here). *)
Inductive usb_request :=
| TESTFX3 | STARTFX3 | STOPFX3 | STARTADC | R82XXINIT | R82XXSTDBY | R82XXTUNE.

(** The [data, length] pair of a control transfer: none ([0, 0]), a buffer
    of [length] bytes the device fills, or the bytes of a [uint32_t] or a
    [uint64_t] local. *)
Inductive buffer :=
| no_data
| read_into (length : Z)
| bytes_of_uint32 (data : Z)
| bytes_of_uint64 (data : Z).

(** Calls into the transport and the streaming engine. *)
Inductive call :=
| usb_device_open (index : Z) (imagefile : string) (gpio : Z)
| usb_device_close (dev : pointer)
| usb_device_control (dev : pointer) (request : usb_request)
    (value index : Z) (data : buffer)
| usb_device_gpio_on (dev : pointer) (bits : Z)
| usb_device_gpio_set (dev : pointer) (bits mask : Z)
| usb_device_set_fw_register (dev : pointer) (reg value : Z)
| streaming_open_async (dev : pointer) (frame_size num_frames : Z)
    (callback callback_context : pointer)
| streaming_set_sample_rate (s : pointer) (rate : Z)
| streaming_start (s : pointer)
| streaming_stop (s : pointer)
| streaming_close (s : pointer).

(** The calls whose return value [libsddc.c] looks at. *)
Definition checked (c : call) : bool :=
  match c with
  | usb_device_close _ | streaming_set_sample_rate _ _ | streaming_close _ =>
      false
  | _ => true
  end.

(** An argument of a [fprintf] format. *)
Inductive arg :=
| arg_int (v : Z)
| arg_double (v : double).

Record message := mk_message { format : string; args : list arg }.

Record world := mk_world {
  trace : list call;       (* calls made so far, oldest first *)
  stderr : list message    (* lines printed so far, oldest first *)
}.

(** The environment: what a call returns, and the bytes it stores into a
    [read_into] buffer, given the calls made before it. *)
Record environment := mk_environment {
  returns : list call -> call -> Z;
  stores : list call -> call -> list Z
}.

(** [returns] of a call is non-negative for every call of [cs] that the
    library checks, when [cs] is made after [history]. *)
Fixpoint all_succeed (env : environment) (history cs : list call) : bool :=
  match cs with
  | [] => true
  | c :: cs' =>
      (negb (checked c) || (0 <=? returns env history c))
      && all_succeed env (history ++ [c]) cs'
  end.

(** ** Computations that talk to the world *)

Definition M (A : Type) : Type := world -> A * world.

Definition pure {A} (a : A) : M A := fun w => (a, w).

Definition bind {A B} (m : M A) (k : A -> M B) : M B :=
  fun w => let (a, w') := m w in k a w'.

Declare Scope sddc_scope.
Delimit Scope sddc_scope with sddc.
Notation "x <- c1 ;; c2" := (bind c1 (fun x => c2))
  (at level 61, c1 at next level, right associativity) : sddc_scope.
Notation "' pat <- c1 ;; c2" := (bind c1 (fun x => match x with pat => c2 end))
  (at level 61, pat pattern, c1 at next level, right associativity) : sddc_scope.
Notation "c1 ;; c2" := (bind c1 (fun _ => c2))
  (at level 61, right associativity) : sddc_scope.
Local Open Scope sddc_scope.

Definition fprintf_stderr (fmt : string) (a : list arg) : M unit :=
  fun w => (tt, mk_world (trace w) (stderr w ++ [mk_message fmt a])).

Section Libsddc.

Variable env : environment.
Variable undefined_conversion : Cast.ctype -> double -> Z.

(** The conversions [(int) x], [(uint16_t) x], [(uint32_t) x] and
    [(uint64_t) x] of a [double]. *)
Definition to_int := Cast.of_double undefined_conversion Cast.c_int.
Definition to_uint16 := Cast.of_double undefined_conversion Cast.c_uint16.
Definition to_uint32 := Cast.of_double undefined_conversion Cast.c_uint32.
Definition to_uint64 := Cast.of_double undefined_conversion Cast.c_uint64.

(** A call: its return value comes from the environment. *)
Definition extern (c : call) : M Z :=
  fun w => (returns env (trace w) c, mk_world (trace w ++ [c]) (stderr w)).

(** A control transfer that fills [data[0 .. length-1]]. *)
Definition extern_read (c : call) : M (Z * list Z) :=
  fun w => ((returns env (trace w) c,
             map Cast.to_uint8 (stores env (trace w) c)),
            mk_world (trace w ++ [c]) (stderr w)).

(** *** basic functions *)

(** The [switch (this->model)] of [sddc_open]: the values it assigns to
    [has_clock_source], [has_vhf_tuner], [hf_attenuator_levels],
    [hf_vga_levels] and [frequency_range]. *)
Definition model_switch (model : SDDCHWModel)
  : Z * Z * Z * Z * (double * double) :=
  if (model =? HW_BBRF103) || (model =? HW_RX888) then
    (1, 1, 3, 0, (10e3, 1750e6)%float)
  else if model =? HW_RX888R2 then
    (1, 1, 64, 127, (10e3, 1750e6)%float)
  else if model =? HW_HF103 then
    (0, 0, 32, 0, (0, 32e6)%float)
  else
    (0, 0, 0, 0, (0, 0)%float).

(** The handle [sddc_open] allocates and fills once the device answered
    [TESTFX3] with the bytes [data]. *)
Definition sddc_new (usb_device : pointer) (data : list Z) : sddc_t :=
  let model := nth 0 data 0 in
  let '(has_clock_source, has_vhf_tuner, hf_attenuator_levels,
        hf_vga_levels, frequency_range) := model_switch model in
  {|
    status := SDDC_STATUS_READY;
    model := model;
    firmware :=
      Cast.to_uint16 (Z.lor (Z.shiftl (nth 1 data 0) 8) (nth 2 data 0));
    rf_mode := HF_MODE;
    usb_device := usb_device;
    streaming := 0;
    has_clock_source := has_clock_source;
    has_vhf_tuner := has_vhf_tuner;
    hf_attenuator_levels := hf_attenuator_levels;
    hf_vga_levels := hf_vga_levels;
    frequency_range := frequency_range;
    sample_rate := DEFAULT_SAMPLE_RATE;             (* default sample rate *)
    hf_attenuation := DEFAULT_HF_ATTENUATION;       (* default HF attenuation *)
    hf_vga_gain := 0x25;                            (* default vga gain code *)
    tuner_frequency := DEFAULT_TUNER_FREQUENCY;     (* default tuner frequency *)
    tuner_attenuation := DEFAULT_TUNER_ATTENUATION; (* default gain *)
    tuner_clock := 0;                               (* tuner off *)
    freq_corr_ppm := DEFAULT_FREQ_CORR_PPM          (* default frequency correction PPM *)
  |}.

(** [NULL] is [None]. *)
Definition sddc_open (index : Z) (imagefile : string) : M (option sddc_t) :=
  usb_device <- extern (usb_device_open index imagefile 0) ;;
  if usb_device =? 0 then
    fprintf_stderr "ERROR - usb_device_open() failed\n" [] ;;
    pure None
  else
    '(ret, data) <-
      extern_read (usb_device_control usb_device TESTFX3 0 0 (read_into 4)) ;;
    if ret <? 0 then
      fprintf_stderr "ERROR - usb_device_control(TESTFX3) failed\n" [] ;;
      _ <- extern (usb_device_close usb_device) ;;
      pure None
    else
      pure (Some (sddc_new usb_device data)).

Definition sddc_get_status (this : sddc_t) : SDDCStatus := status this.

Definition sddc_get_rf_mode (this : sddc_t) : RFMode := rf_mode this.

(** *** HF block functions *)

Definition sddc_get_hf_attenuation (this : sddc_t) : double :=
  hf_attenuation this.

Definition sddc_set_hf_attenuation (this : sddc_t) (attenuation : double)
  : M (Z * sddc_t) :=
  if hf_attenuator_levels this =? 0 then
    (* no attenuator *)
    pure (0, this)
  else if hf_attenuator_levels this =? 3 then
    (* old style attenuator with just 0dB, 10dB, and 20Db *)
    match
      match to_int attenuation with
      | 0 => Some GPIO_ATT_SEL1
      | 10 => Some (Z.lor GPIO_ATT_SEL0 GPIO_ATT_SEL1)
      | 20 => Some GPIO_ATT_SEL0
      | _ => None
      end
    with
    | None =>
        fprintf_stderr "ERROR - invalid HF attenuation: %lf\n"
          [arg_double attenuation] ;;
        pure (-1, this)
    | Some bit_pattern =>
        let this := set_hf_attenuation attenuation this in
        ret <- extern (usb_device_gpio_set (usb_device this) bit_pattern
                         (Z.lor GPIO_ATT_SEL0 GPIO_ATT_SEL1)) ;;
        pure (ret, this)
    end
  else if hf_attenuator_levels this =? 32 then
    (* new style attenuator with 1dB increments *)
    if (attenuation <? 0.0)%float
       || (Cast.of_int (hf_attenuator_levels this - 1) <? attenuation)%float
    then
      fprintf_stderr "ERROR - invalid HF attenuation: %lf\n"
        [arg_double attenuation] ;;
      pure (-1, this)
    else
      let this := set_hf_attenuation attenuation this in
      let dat31_att := Cast.to_uint16 (to_int attenuation) in
      ret <- extern (usb_device_set_fw_register (usb_device this)
                       FW_REG_DAT31_ATT dat31_att) ;;
      pure (ret, this)
  else if hf_attenuator_levels this =? 64 then
    (* pe4312 (0.5dB increments) *)
    if (attenuation <? 0.0)%float || (31.5 <? attenuation)%float then
      fprintf_stderr "ERROR - invalid HF attenuation: %lf\n"
        [arg_double attenuation] ;;
      pure (-1, this)
    else
      let this := set_hf_attenuation attenuation this in
      let pe4312_att := to_uint16 (attenuation * 2)%float in
      ret <- extern (usb_device_set_fw_register (usb_device this)
                       FW_REG_DAT31_ATT pe4312_att) ;;
      pure (ret, this)
  else
    (* should never get here *)
    fprintf_stderr "ERROR - invalid number of HF attenuator levels: %d\n"
      [arg_int (hf_attenuator_levels this)] ;;
    pure (-1, this).

Definition sddc_set_hf_vga_gain (this : sddc_t) (idx : Z) : M (Z * sddc_t) :=
  if hf_vga_levels this =? 0 then
    (* no vga *)
    pure (0, this)
  else if hf_vga_levels this =? 127 then
    if (idx <? 0) || (idx >? 127) then
      fprintf_stderr "ERROR - invalid HF vga gain idx: %d\n" [arg_int idx] ;;
      pure (-1, this)
    else
      (* AD8370 *)
      let gain_code :=
        if idx >? AD8370_GAIN_SWEET_POINT then
          Cast.to_uint8
            (Z.lor AD8370_HIGH_MODE (idx - AD8370_GAIN_SWEET_POINT + 3))
        else
          Cast.to_uint8 (Z.lor AD8370_LOW_MODE (idx + 1)) in
      let this := set_hf_vga_gain idx this in
      ret <- extern (usb_device_set_fw_register (usb_device this)
                       FW_REG_AD8370_VGA gain_code) ;;
      pure (ret, this)
  else
    (* should never get here *)
    fprintf_stderr "ERROR - invalid number of HF vga levels: %d\n"
      [arg_int (hf_vga_levels this)] ;;
    pure (-1, this).

(** *** internal functions *)

(** helper method to configure GPIOs for VHF *)
Definition sddc_set_vhf_gpios (this : sddc_t) : M Z :=
  extern (usb_device_gpio_set (usb_device this) 0
            (Z.lor GPIO_ATT_SEL0 GPIO_ATT_SEL1)).

(** *** RF mode *)

Definition RFMode_value (m : RFMode) : Z :=
  match m with
  | NO_RF_MODE => 0
  | HF_MODE => 1
  | VHF_MODE => 2
  end.

Definition sddc_set_rf_mode (this : sddc_t) (rf_mode : RFMode)
  : M (Z * sddc_t) :=
  match rf_mode with
  | HF_MODE =>
      let this := set_rf_mode HF_MODE this in
      (* stop tuner *)
      ret <- extern (usb_device_control (usb_device this) R82XXSTDBY 0 0
                       no_data) ;;
      if ret <? 0 then
        fprintf_stderr "ERROR - usb_device_control(R82XXSTDBY) failed\n" [] ;;
        pure (-1, this)
      else
        (* switch to HF input and restore hf attenuation *)
        '(ret, this) <- sddc_set_hf_attenuation this (hf_attenuation this) ;;
        if ret <? 0 then
          fprintf_stderr "ERROR - sddc_set_hf_attenuation() failed\n" [] ;;
          pure (-1, this)
        else
          (* restore hf vga gain *)
          if hf_vga_levels this >? 0 then
            '(ret, this) <- sddc_set_hf_vga_gain this (hf_vga_gain this) ;;
            if ret <? 0 then
              fprintf_stderr "ERROR - sddc_set_hf_vga_gain() failed\n" [] ;;
              pure (-1, this)
            else
              pure (0, this)
          else
            pure (0, this)
  | VHF_MODE =>
      if has_vhf_tuner this =? 0 then
        fprintf_stderr "WARNING - no VHF/UHF tuner found\n" [] ;;
        pure (-1, this)
      else
        let this := set_rf_mode VHF_MODE this in
        (* switch to VHF input *)
        ret <- sddc_set_vhf_gpios this ;;
        if ret <? 0 then
          fprintf_stderr "ERROR - sddc_set_vhf_gpios() failed\n" [] ;;
          pure (-1, this)
        else
          (* initialize tuner *)
          (* tuner reference frequency *)
          let correction :=
            (1e-6 * freq_corr_ppm this * tuner_clock this)%float in
          let data := to_uint32 (tuner_clock this + correction)%float in
          ret <- extern (usb_device_control (usb_device this) R82XXINIT 0 0
                           (bytes_of_uint32 data)) ;;
          if ret <? 0 then
            fprintf_stderr "ERROR - usb_device_control(R82XXINIT) failed\n"
              [] ;;
            pure (-1, this)
          else
            pure (0, this)
  | _ =>
      fprintf_stderr "WARNING - invalid RF mode: %d\n"
        [arg_int (RFMode_value rf_mode)] ;;
      pure (-1, this)
  end.

(** *** VHF block and VHF/UHF tuner functions *)

Definition sddc_get_tuner_frequency (this : sddc_t) : double :=
  tuner_frequency this.

Definition sddc_set_tuner_frequency (this : sddc_t) (frequency : double)
  : M (Z * sddc_t) :=
  let data := to_uint64 frequency in
  ret <- extern (usb_device_control (usb_device this) R82XXTUNE 0 0
                   (bytes_of_uint64 data)) ;;
  if ret <? 0 then
    fprintf_stderr "ERROR - usb_device_control(R82XXTUNE) failed\n" [] ;;
    pure (-1, this)
  else
    let this := set_tuner_frequency frequency this in
    pure (0, this).

(** [fabs(attenuation - table[i])]. *)
Definition distance (table : list double) (attenuation : double) (i : Z)
  : double :=
  abs (attenuation - nth (Z.to_nat i) table 0)%float.

(** The loop
    [for (int i = ...; i < size; ++i) { att = fabs(attenuation - table[i]);
       if (att < idx_att) { idx = i; idx_att = att; } }]
    of the two tuner attenuation setters, with [n] iterations left to run
    from [i]; [idx] is a [uint16_t]. *)
Fixpoint attenuation_loop (table : list double) (attenuation : double)
    (n : nat) (i : Z) (idx : Z) (idx_att : double) : Z * double :=
  match n with
  | O => (idx, idx_att)
  | S n' =>
      let att := distance table attenuation i in
      if (att <? idx_att)%float then
        attenuation_loop table attenuation n' (i + 1) (Cast.to_uint16 i) att
      else
        attenuation_loop table attenuation n' (i + 1) idx idx_att
  end.

(** The index both setters compute before they write it: [idx] starts at
    [0], [idx_att] at [fabs(attenuation - table[0])], and [i] runs from [1]
    to the table's size. *)
Definition attenuation_index (table : list double) (attenuation : double)
  : Z :=
  let table_size := Z.of_nat (List.length table) in
  let idx := 0 in
  let idx_att := distance table attenuation idx in
  fst (attenuation_loop table attenuation (Z.to_nat (table_size - 1)) 1
         idx idx_att).

Definition sddc_set_tuner_rf_attenuation (this : sddc_t)
    (attenuation : double) : M (Z * sddc_t) :=
  let idx := attenuation_index tuner_rf_attenuations_table attenuation in
  ret <- extern (usb_device_set_fw_register (usb_device this)
                   FW_REG_R82XX_ATTENUATOR idx) ;;
  if ret <? 0 then
    fprintf_stderr
      "ERROR - usb_device_set_fw_register(FW_REG_R82XX_ATTENUATOR) failed\n"
      [] ;;
    pure (-1, this)
  else
    fprintf_stderr "INFO - RF tuner attenuation set to %.1f\n"
      [arg_double (nth (Z.to_nat idx) tuner_rf_attenuations_table 0%float)] ;;
    pure (0, this).

Definition sddc_set_tuner_if_attenuation (this : sddc_t)
    (attenuation : double) : M (Z * sddc_t) :=
  let idx := attenuation_index tuner_if_attenuations_table attenuation in
  ret <- extern (usb_device_set_fw_register (usb_device this)
                   FW_REG_R82XX_VGA idx) ;;
  if ret <? 0 then
    fprintf_stderr
      "ERROR - usb_device_set_fw_register(FW_REG_R82XX_VGA) failed\n" [] ;;
    pure (-1, this)
  else
    fprintf_stderr "INFO - IF tuner attenuation set to %.1f\n"
      [arg_double (nth (Z.to_nat idx) tuner_if_attenuations_table 0%float)] ;;
    pure (0, this).

(** *** streaming related functions *)

Definition sddc_set_sample_rate (this : sddc_t) (sample_rate : double)
  : Z * sddc_t :=
  (* no checks yet *)
  let this := set_sample_rate sample_rate this in
  (0, this).

Definition sddc_set_async_params (this : sddc_t) (frame_size num_frames : Z)
    (callback callback_context : pointer) : M (Z * sddc_t) :=
  if negb (streaming this =? 0) then
    fprintf_stderr
      "ERROR - sddc_set_async_params() failed: streaming already configured\n"
      [] ;;
    pure (-1, this)
  else
    s <- extern (streaming_open_async (usb_device this) frame_size
                   num_frames callback callback_context) ;;
    let this := set_streaming s this in
    if streaming this =? 0 then
      fprintf_stderr "ERROR - streaming_open_async() failed\n" [] ;;
      pure (-1, this)
    else
      pure (0, this).

Definition SDDCStatus_value (s : SDDCStatus) : Z :=
  match s with
  | SDDC_STATUS_OFF => 0
  | SDDC_STATUS_READY => 1
  | SDDC_STATUS_STREAMING => 2
  | SDDC_STATUS_FAILED => 0xff
  end.

(** [sddc_start_streaming] from [/* start the producer */] on. *)
Definition start_the_producer (this : sddc_t) : M (Z * sddc_t) :=
  ret <- extern (usb_device_control (usb_device this) STARTFX3 0 0 no_data) ;;
  if ret <? 0 then
    fprintf_stderr "ERROR - usb_device_control(STARTFX3) failed\n" [] ;;
    pure (-1, this)
  else
    (* all good *)
    let this := set_status SDDC_STATUS_STREAMING this in
    pure (0, this).

(** [sddc_start_streaming] from [/* start async streaming */] on. *)
Definition start_async_streaming (this : sddc_t) : M (Z * sddc_t) :=
  if negb (streaming this =? 0) then
    _ <- extern (streaming_set_sample_rate (streaming this)
                   (to_uint32 (sample_rate this))) ;;
    ret <- extern (streaming_start (streaming this)) ;;
    if ret <? 0 then
      fprintf_stderr "ERROR - streaming_start() failed\n" [] ;;
      pure (-1, this)
    else
      start_the_producer this
  else
    start_the_producer this.

(** [sddc_start_streaming] from [/* initialize tuner */] on. *)
Definition start_initialize_tuner (this : sddc_t) : M (Z * sddc_t) :=
  if RFMode_eqb (rf_mode this) VHF_MODE then
    (* tuner reference frequency *)
    let correction := (1e-6 * freq_corr_ppm this * TUNER_CLOCK)%float in
    let data := to_uint32 (TUNER_CLOCK + correction)%float in
    ret <- extern (usb_device_control (usb_device this) R82XXINIT 0 0
                     (bytes_of_uint32 data)) ;;
    if ret <? 0 then
      fprintf_stderr "ERROR - usb_device_control(R82XXINIT) failed\n" [] ;;
      pure (-1, this)
    else
      start_async_streaming this
  else
    start_async_streaming this.

Definition sddc_start_streaming (this : sddc_t) : M (Z * sddc_t) :=
  if negb (SDDCStatus_eqb (status this) SDDC_STATUS_READY) then
    fprintf_stderr
      "ERROR - sddc_start_streaming() called with SDR status not READY: %d\n"
      [arg_int (SDDCStatus_value (status this))] ;;
    pure (-1, this)
  else
    (* ADC sampling frequency *)
    let correction := (1e-6 * freq_corr_ppm this * sample_rate this)%float in
    let data := to_uint32 (sample_rate this + correction)%float in
    ret <- extern (usb_device_control (usb_device this) STARTADC 0 0
                     (bytes_of_uint32 data)) ;;
    if ret <? 0 then
      fprintf_stderr "ERROR - usb_device_control(STARTADC) failed\n" [] ;;
      pure (-1, this)
    else
      start_initialize_tuner this.

(** [sddc_stop_streaming] from [/* stop ADC */] on. *)
Definition stop_adc (this : sddc_t) : M (Z * sddc_t) :=
  ret <- extern (usb_device_gpio_on (usb_device this) GPIO_ADC_SHDN) ;;
  if ret <? 0 then
    fprintf_stderr "ERROR - usb_device_gpio_on(ADC_SHDN) failed\n" [] ;;
    pure (-1, this)
  else
    (* all good *)
    let this := set_status SDDC_STATUS_READY this in
    pure (0, this).

(** [sddc_stop_streaming] from [/* stop tuner */] on. *)
Definition stop_tuner (this : sddc_t) : M (Z * sddc_t) :=
  if RFMode_eqb (rf_mode this) VHF_MODE then
    ret <- extern (usb_device_control (usb_device this) R82XXSTDBY 0 0
                     no_data) ;;
    if ret <? 0 then
      fprintf_stderr "ERROR - usb_device_control(R82XXSTDBY) failed\n" [] ;;
      pure (-1, this)
    else
      stop_adc this
  else
    stop_adc this.

(** [sddc_stop_streaming] from [/* stop async streaming */] on. *)
Definition stop_async_streaming (this : sddc_t) : M (Z * sddc_t) :=
  if negb (streaming this =? 0) then
    ret <- extern (streaming_stop (streaming this)) ;;
    if ret <? 0 then
      fprintf_stderr "ERROR - streaming_stop() failed\n" [] ;;
      pure (-1, this)
    else
      _ <- extern (streaming_close (streaming this)) ;;
      stop_tuner this
  else
    stop_tuner this.

Definition sddc_stop_streaming (this : sddc_t) : M (Z * sddc_t) :=
  if negb (SDDCStatus_eqb (status this) SDDC_STATUS_STREAMING) then
    fprintf_stderr
      "ERROR - sddc_stop_streaming() called with SDR status not STREAMING: %d\n"
      [arg_int (SDDCStatus_value (status this))] ;;
    pure (-1, this)
  else
    (* stop the producer *)
    ret <- extern (usb_device_control (usb_device this) STOPFX3 0 0 no_data) ;;
    if ret <? 0 then
      fprintf_stderr "ERROR - usb_device_control(STOPFX3) failed\n" [] ;;
      pure (-1, this)
    else
      stop_async_streaming this.

(** *** Misc functions *)

Definition sddc_get_frequency_correction (this : sddc_t) : double :=
  freq_corr_ppm this.

Definition sddc_set_frequency_correction (this : sddc_t)
    (correction : double) : M (Z * sddc_t) :=
  if SDDCStatus_eqb (status this) SDDC_STATUS_STREAMING then
    fprintf_stderr
      "ERROR - sddc_set_frequency_correction() failed - device is streaming\n"
      [] ;;
    pure (-1, this)
  else
    let this := set_freq_corr_ppm correction this in
    pure (0, this).


(** ** Sample devices *)

(** A transport whose [usb_device_open] and [streaming_open_async] return
    the addresses [0x1000] and [0x2000], whose other calls all return [r],
    and whose device answers [TESTFX3] with [reply]. *)
Definition device (r : Z) (reply : list Z) : environment :=
  mk_environment
    (fun _ c =>
       match c with
       | usb_device_open _ _ _ => 0x1000
       | streaming_open_async _ _ _ _ _ => 0x2000
       | _ => r
       end)
    (fun _ _ => reply).

(** A transport that works until the producer is to be started or
    stopped: [STARTFX3] and [STOPFX3] return [-1]. *)
Definition producer_stuck : environment :=
  mk_environment
    (fun _ c =>
       match c with
       | usb_device_control _ STARTFX3 _ _ _ => -1
       | usb_device_control _ STOPFX3 _ _ _ => -1
       | _ => 0
       end)
    (fun _ _ => []).

(** A platform on which an undefined conversion yields the least value of
    the target type. *)
Definition least_value (t : Cast.ctype) (x : double) : Z := Cast.min_of t.

Definition boot : world := mk_world [] [].

(** The handles [sddc_open] builds for an RX888, an RX888 mk II, an HF103
    and a device answering with a model id outside the enumeration. *)
Definition rx888 : sddc_t := sddc_new 0x1000 [HW_RX888; 1; 2; 0].
Definition rx888r2 : sddc_t := sddc_new 0x1000 [HW_RX888R2; 1; 2; 0].
Definition hf103 : sddc_t := sddc_new 0x1000 [HW_HF103; 1; 2; 0].
Definition unknown_radio : sddc_t := sddc_new 0x1000 [77; 1; 2; 0].

(** ** The specification's wording, where it is compared with the code *)

(** "64-level attenuator: writes round(value x 2)". *)
Definition spec_pe4312_att (value : double) : option Z :=
  Cast.round (value * 2)%float.

(** ** Outcome of a sequence of checked calls *)

(** A run from [w] that ended in [r] made the calls [cs] and nothing
    else; when every checked call of [cs] succeeded it returned 0 with the
    handle [good], and otherwise [-1] with the handle [this]. *)
Definition all_or_nothing (this good : sddc_t) (w : world)
    (r : Z * sddc_t * world) : Prop :=
  let '(ret, this', w') := r in
  exists cs,
    trace w' = trace w ++ cs /\
    if all_succeed env (trace w) cs then ret = 0 /\ this' = good
    else ret = -1 /\ this' = this.

(** ** Nearest entry of a table *)

(** [idx] is the first index among [0 .. i-1] at which the distance to
    [attenuation] is least: no entry among them is closer, and every
    earlier entry is farther. *)
Definition first_nearest (table : list double) (attenuation : double)
    (i idx : Z) : Prop :=
  let d := distance table attenuation in
  0 <= idx < i /\
  (forall j, 0 <= j < i -> (d j <? d idx)%float = false) /\
  (forall j, 0 <= j < idx -> (d j <=? d idx)%float = false).

(** ** More of [libsddc.h] and [libsddc.c] *)

(** [enum LEDColors] *)
Definition LED_YELLOW : Z := 0x01.
Definition LED_RED : Z := 0x02.
Definition LED_BLUE : Z := 0x04.

Definition GPIO_LED_SHIFT : Z := 10.

(** [free(this)] leaves no trace. *)
Definition sddc_close (this : sddc_t) : M unit :=
  _ <- extern (usb_device_close (usb_device this)) ;;
  pure tt.

Definition sddc_get_hw_model (this : sddc_t) : SDDCHWModel := model this.

Definition sddc_get_firmware (this : sddc_t) : Z := firmware this.

Definition sddc_get_frequency_range (this : sddc_t) : double * double :=
  frequency_range this.

(** [led_pattern] is a [uint8_t]; in [led_pattern & ~(...)] it is promoted to
    [int], and it is widened to [uint16_t] before the shift. *)
Definition sddc_led_on (this : sddc_t) (led_pattern : Z) : M Z :=
  if negb (Z.land led_pattern
             (Z.lnot (Z.lor (Z.lor LED_YELLOW LED_RED) LED_BLUE)) =? 0)
  then
    fprintf_stderr "ERROR - invalid LED pattern: 0x%02x\n"
      [arg_int led_pattern] ;;
    pure (-1)
  else
    extern (usb_device_gpio_on (usb_device this)
              (Z.shiftl (Cast.to_uint16 led_pattern) GPIO_LED_SHIFT)).

(** The table and its size, as [sddc_get_tuner_rf_attenuations] and
    [sddc_get_tuner_if_attenuations] hand them out. *)
Definition sddc_get_tuner_rf_attenuations (this : sddc_t)
  : Z * list double :=
  (Z.of_nat (List.length tuner_rf_attenuations_table),
   tuner_rf_attenuations_table).

Definition sddc_get_tuner_if_attenuations (this : sddc_t)
  : Z * list double :=
  (Z.of_nat (List.length tuner_if_attenuations_table),
   tuner_if_attenuations_table).

(** ** Predicates of the further statements *)

(** A double that is neither an infinity nor a NaN. *)
Definition finite (x : double) : bool :=
  match Prim2SF x with
  | S754_zero _ | S754_finite _ _ _ => true
  | S754_infinity _ | S754_nan => false
  end.

(** The gain code of the AD8370 for a gain index: low mode up to the sweet
    point, high mode above it. *)
Definition ad8370_gain_code (idx : Z) : Z :=
  if idx <=? 18 then idx + 1 else 128 + (idx - 15).

(** The fields no function of the library assigns after [sddc_open]: the
    identification, the transport, the capabilities, and the two tuner
    fields that are only ever initialised. *)
Definition same_device (a b : sddc_t) : Prop :=
  model a = model b /\ firmware a = firmware b /\
  usb_device a = usb_device b /\
  has_clock_source a = has_clock_source b /\
  has_vhf_tuner a = has_vhf_tuner b /\
  hf_attenuator_levels a = hf_attenuator_levels b /\
  hf_vga_levels a = hf_vga_levels b /\
  frequency_range a = frequency_range b /\
  tuner_clock a = tuner_clock b /\
  tuner_attenuation a = tuner_attenuation b.

(** The calls of [sddc_start_streaming], in the order of the source. *)
Definition start_plan (this : sddc_t) : list call :=
  [usb_device_control (usb_device this) STARTADC 0 0
     (bytes_of_uint32
        (to_uint32 (sample_rate this +
                    1e-6 * freq_corr_ppm this * sample_rate this)%float))]
  ++ (if RFMode_eqb (rf_mode this) VHF_MODE then
        [usb_device_control (usb_device this) R82XXINIT 0 0
           (bytes_of_uint32
              (to_uint32 (TUNER_CLOCK +
                          1e-6 * freq_corr_ppm this * TUNER_CLOCK)%float))]
      else [])
  ++ (if negb (streaming this =? 0) then
        [streaming_set_sample_rate (streaming this)
           (to_uint32 (sample_rate this));
         streaming_start (streaming this)]
      else [])
  ++ [usb_device_control (usb_device this) STARTFX3 0 0 no_data].

(** The calls of [sddc_stop_streaming], in the order of the source. *)
Definition stop_plan (this : sddc_t) : list call :=
  [usb_device_control (usb_device this) STOPFX3 0 0 no_data]
  ++ (if negb (streaming this =? 0) then
        [streaming_stop (streaming this); streaming_close (streaming this)]
      else [])
  ++ (if RFMode_eqb (rf_mode this) VHF_MODE then
        [usb_device_control (usb_device this) R82XXSTDBY 0 0 no_data]
      else [])
  ++ [usb_device_gpio_on (usb_device this) GPIO_ADC_SHDN].

(** A run from [w] that ended in [r] went through [plan] in order and
    stopped at the first checked call that failed: either every call of
    [plan] was made and succeeded, and the run returned 0 with the handle
    [good]; or the calls made are [plan] up to a call [c] that returned a
    negative value, all calls before [c] succeeded, and the run returned
    [-1] with the handle [this]. *)
Definition fail_fast (plan : list call) (this good : sddc_t) (w : world)
    (r : Z * sddc_t * world) : Prop :=
  let '(ret, this', w') := r in
  (ret = 0 /\ this' = good /\ trace w' = trace w ++ plan /\
   all_succeed env (trace w) plan = true) \/
  (ret = -1 /\ this' = this /\
   exists before c after,
     plan = before ++ c :: after /\
     trace w' = trace w ++ before ++ [c] /\
     all_succeed env (trace w) before = true /\
     checked c = true /\
     returns env (trace w ++ before) c < 0).

(** The validation [sddc_set_hf_attenuation] applies for an attenuator with
    [levels] levels: [true] when the value is let through. *)
Definition attenuation_accepted (levels : Z) (attenuation : double) : bool :=
  if levels =? 0 then true
  else if levels =? 3 then
    match to_int attenuation with
    | 0 | 10 | 20 => true
    | _ => false
    end
  else if levels =? 32 then
    negb ((attenuation <? 0.0)%float
          || (Cast.of_int (levels - 1) <? attenuation)%float)
  else if levels =? 64 then
    negb ((attenuation <? 0.0)%float || (31.5 <? attenuation)%float)
  else false.

(** The validation [sddc_set_hf_vga_gain] applies for a VGA with [levels]
    levels. *)
Definition gain_accepted (levels idx : Z) : bool :=
  if levels =? 0 then true
  else if levels =? 127 then negb ((idx <? 0) || (idx >? 127))
  else false.

(** The stored HF attenuation and VGA gain index would pass the validation
    of their setters again. *)
Definition settings_valid (this : sddc_t) : Prop :=
  attenuation_accepted (hf_attenuator_levels this) (hf_attenuation this)
    = true /\
  gain_accepted (hf_vga_levels this) (hf_vga_gain this) = true.

(** ** The order of doubles *)

Lemma SFcompare_finite s1 m1 e1 s2 m2 e2 :
  SFcompare (S754_finite s1 m1 e1) (S754_finite s2 m2 e2) =
  Some (if s1 then
          if s2 then
            match Z.compare e1 e2 with
            | Eq => CompOpp (Pos.compare m1 m2)
            | Lt => Gt
            | Gt => Lt
            end
          else Lt
        else
          if s2 then Gt
          else
            match Z.compare e1 e2 with
            | Eq => Pos.compare m1 m2
            | Lt => Lt
            | Gt => Gt
            end).
Proof. reflexivity. Qed.

Ltac compare_cases :=
  repeat match goal with
  | |- context [Z.compare ?a ?b] => destruct (Z.compare_spec a b)
  | H : context [Z.compare ?a ?b] |- _ => destruct (Z.compare_spec a b)
  | |- context [Pos.compare ?a ?b] => destruct (Pos.compare_spec a b)
  | H : context [Pos.compare ?a ?b] |- _ => destruct (Pos.compare_spec a b)
  end.

Ltac by_signs :=
  simpl; repeat match goal with s : bool |- _ => destruct s end;
  simpl; congruence.

Lemma SFcompare_lt_trans a b c :
  SFcompare a b = Some Lt -> SFcompare b c = Some Lt ->
  SFcompare a c = Some Lt.
Proof.
  destruct a as [sa|sa| |sa ma ea], b as [sb|sb| |sb mb eb],
           c as [sc|sc| |sc mc ec];
    rewrite ?SFcompare_finite; try by_signs.
  all: destruct sa, sb, sc; try congruence; intros H1 H2; f_equal.
  all: compare_cases; simpl in *; try congruence; try lia.
Qed.

Lemma SFcompare_eq_lt_trans a b c :
  SFcompare a b = Some Eq -> SFcompare b c = Some Lt ->
  SFcompare a c = Some Lt.
Proof.
  destruct a as [sa|sa| |sa ma ea], b as [sb|sb| |sb mb eb],
           c as [sc|sc| |sc mc ec];
    rewrite ?SFcompare_finite; try by_signs.
  all: destruct sa, sb, sc; try congruence; intros H1 H2; f_equal.
  all: compare_cases; simpl in *; try congruence; try lia.
Qed.

Lemma SFcompare_lt_gt a b :
  SFcompare a b = Some Lt -> SFcompare b a = Some Gt.
Proof.
  destruct a as [sa|sa| |sa ma ea], b as [sb|sb| |sb mb eb];
    rewrite ?SFcompare_finite; try by_signs.
  destruct sa, sb; try congruence; intros H1; f_equal.
  all: compare_cases; simpl in *; try congruence; try lia.
Qed.

Lemma SFcompare_eq_sym a b :
  SFcompare a b = Some Eq -> SFcompare b a = Some Eq.
Proof.
  destruct a as [sa|sa| |sa ma ea], b as [sb|sb| |sb mb eb];
    rewrite ?SFcompare_finite; try by_signs.
  destruct sa, sb; try congruence; intros H1; f_equal.
  all: compare_cases; simpl in *; try congruence; try lia.
Qed.

(** [a < b] and [b < c] give [a < c]. *)
Lemma ltb_trans (a b c : double) :
  (a <? b)%float = true -> (b <? c)%float = true -> (a <? c)%float = true.
Proof.
  rewrite !ltb_spec. unfold SFltb.
  destruct (SFcompare (Prim2SF a) (Prim2SF b)) as [[]|] eqn:Hab;
    try discriminate.
  destruct (SFcompare (Prim2SF b) (Prim2SF c)) as [[]|] eqn:Hbc;
    try discriminate.
  now rewrite (SFcompare_lt_trans _ _ _ Hab Hbc).
Qed.

(** [a <= b] and [b < c] give [a < c]. *)
Lemma leb_ltb_trans (a b c : double) :
  (a <=? b)%float = true -> (b <? c)%float = true -> (a <? c)%float = true.
Proof.
  rewrite leb_spec, !ltb_spec. unfold SFleb, SFltb.
  destruct (SFcompare (Prim2SF a) (Prim2SF b)) as [[]|] eqn:Hab;
    try discriminate;
    destruct (SFcompare (Prim2SF b) (Prim2SF c)) as [[]|] eqn:Hbc;
    try discriminate; intros _ _.
  - now rewrite (SFcompare_eq_lt_trans _ _ _ Hab Hbc).
  - now rewrite (SFcompare_lt_trans _ _ _ Hab Hbc).
Qed.

(** No double is below itself. *)
Lemma ltb_irrefl (a : double) : (a <? a)%float = false.
Proof.
  rewrite ltb_spec. unfold SFltb.
  destruct (SFcompare (Prim2SF a) (Prim2SF a)) as [[]|] eqn:Haa; trivial.
  pose proof (SFcompare_lt_gt _ _ Haa). congruence.
Qed.

(** [a <= b] excludes [b < a]. *)
Lemma leb_not_gtb (a b : double) :
  (a <=? b)%float = true -> (b <? a)%float = false.
Proof.
  rewrite leb_spec, ltb_spec. unfold SFleb, SFltb.
  destruct (SFcompare (Prim2SF a) (Prim2SF b)) as [[]|] eqn:Hab;
    try discriminate; intros _.
  - now rewrite (SFcompare_eq_sym _ _ Hab).
  - now rewrite (SFcompare_lt_gt _ _ Hab).
Qed.

(** ** Opening a device *)

Ltac run :=
  unfold bind, pure, fprintf_stderr, extern, extern_read; cbn.

(** A handle comes out of [sddc_open] only through [sddc_new]. *)
Lemma sddc_open_some index imagefile w this w' :
  sddc_open index imagefile w = (Some this, w') ->
  exists usb_device data, usb_device <> 0 /\ this = sddc_new usb_device data.
Proof.
  unfold sddc_open. run.
  destruct (_ =? 0) eqn:Hdev; [discriminate|].
  destruct (_ <? 0); [discriminate|].
  intros H. injection H as <- _.
  eexists _, _. split; [|reflexivity]. now apply Z.eqb_neq.
Qed.

(** [sddc_open] does return a handle when the transport opens the device
    and the identification transfer succeeds. *)
Lemma sddc_open_succeeds index imagefile w dev :
  returns env (trace w) (usb_device_open index imagefile 0) = dev ->
  dev <> 0 ->
  0 <= returns env (trace w ++ [usb_device_open index imagefile 0])
         (usb_device_control dev TESTFX3 0 0 (read_into 4)) ->
  exists this w', sddc_open index imagefile w = (Some this, w').
Proof.
  intros Heq Hdev Hret. unfold sddc_open. run. rewrite Heq.
  apply Z.eqb_neq in Hdev. rewrite Hdev. cbn.
  apply Z.ltb_ge in Hret. rewrite Hret.
  eexists _, _. reflexivity.
Qed.

Lemma sddc_new_fixed_fields usb_device data :
  let this := sddc_new usb_device data in
  status this = SDDC_STATUS_READY /\ rf_mode this = HF_MODE /\
  sample_rate this = DEFAULT_SAMPLE_RATE /\
  tuner_frequency this = DEFAULT_TUNER_FREQUENCY /\
  hf_attenuation this = DEFAULT_HF_ATTENUATION /\
  hf_vga_gain this = 0x25 /\
  freq_corr_ppm this = DEFAULT_FREQ_CORR_PPM /\
  tuner_clock this = 0%float.
Proof.
  unfold sddc_new.
  destruct (model_switch _) as [[[[? ?] ?] ?] ?]. simpl. tauto.
Qed.

Lemma sddc_new_model usb_device data :
  model (sddc_new usb_device data) = nth 0 data 0.
Proof.
  unfold sddc_new. now destruct (model_switch _) as [[[[? ?] ?] ?] ?].
Qed.

(** A model id outside BBRF103, HF103, RX888 and RX888R2 gives a handle
    without attenuator, VGA or tuner. *)
Lemma sddc_new_unknown_model usb_device data :
  let this := sddc_new usb_device data in
  ~ In (model this) [HW_BBRF103; HW_HF103; HW_RX888; HW_RX888R2] ->
  hf_attenuator_levels this = 0 /\ hf_vga_levels this = 0 /\
  has_vhf_tuner this = 0.
Proof.
  intros this H. subst this. rewrite sddc_new_model in H.
  unfold sddc_new, model_switch.
  destruct (Z.eqb_spec (nth 0 data 0) HW_BBRF103) as [E|_];
    [exfalso; apply H; rewrite E; simpl; tauto|].
  destruct (Z.eqb_spec (nth 0 data 0) HW_RX888) as [E|_];
    [exfalso; apply H; rewrite E; simpl; tauto|].
  destruct (Z.eqb_spec (nth 0 data 0) HW_RX888R2) as [E|_];
    [exfalso; apply H; rewrite E; simpl; tauto|].
  destruct (Z.eqb_spec (nth 0 data 0) HW_HF103) as [E|_];
    [exfalso; apply H; rewrite E; simpl; tauto|].
  simpl. tauto.
Qed.

(** C10. Every successful [sddc_open] leaves the handle with status READY
    and RF mode HF (not the pre-configuration mode [NO_RF_MODE]), whatever
    model id the device answered with. *)
Theorem open_gives_ready_hf index imagefile w this w' :
  sddc_open index imagefile w = (Some this, w') ->
  sddc_get_status this = SDDC_STATUS_READY /\
  sddc_get_rf_mode this = HF_MODE /\
  sddc_get_rf_mode this <> NO_RF_MODE.
Proof.
  intros H. apply sddc_open_some in H as (dev & data & _ & ->).
  destruct (sddc_new_fixed_fields dev data) as (Hs & Hm & _).
  unfold sddc_get_status, sddc_get_rf_mode.
  rewrite Hs, Hm. repeat split. discriminate.
Qed.

(** C8. After every successful [sddc_open] the defaults are: sample rate
    64 MHz, tuner frequency 999 kHz, HF attenuation 0 dB, VGA gain code
    0x25 (37 on the scale 0..127, the 20 dB code of the table
    0dB:0x10, 10dB:0x17, 20dB:0x25, 30dB:0x5d), frequency correction 0 ppm
    and tuner clock 0 (tuner off). *)
Theorem open_defaults index imagefile w this w' :
  sddc_open index imagefile w = (Some this, w') ->
  sample_rate this = 64e6%float /\
  sddc_get_tuner_frequency this = 999e3%float /\
  sddc_get_hf_attenuation this = 0%float /\
  hf_vga_gain this = 0x25 /\ 0 < hf_vga_gain this < 127 /\
  sddc_get_frequency_correction this = 0%float /\
  tuner_clock this = 0%float.
Proof.
  intros H. apply sddc_open_some in H as (dev & data & _ & ->).
  destruct (sddc_new_fixed_fields dev data)
    as (_ & _ & Hsr & Htf & Hha & Hvg & Hfc & Htc).
  unfold sddc_get_tuner_frequency, sddc_get_hf_attenuation,
    sddc_get_frequency_correction.
  rewrite Hsr, Htf, Hha, Hvg, Hfc, Htc. repeat split; reflexivity.
Qed.

(** ** RF mode *)

(** C2. On a handle without VHF tuner, [sddc_set_rf_mode(VHF_MODE)] returns
    [-1], leaves the handle (its RF mode and every other field) as it was
    and makes no call to the transport; it prints one warning. *)
Theorem set_rf_mode_vhf_without_tuner this w :
  has_vhf_tuner this = 0 ->
  let '(ret, this', w') := sddc_set_rf_mode this VHF_MODE w in
  ret = -1 /\ this' = this /\
  sddc_get_rf_mode this' = sddc_get_rf_mode this /\
  trace w' = trace w /\
  stderr w' =
    stderr w ++ [mk_message "WARNING - no VHF/UHF tuner found\n" []].
Proof.
  intros H. unfold sddc_set_rf_mode. rewrite H. run. auto.
Qed.

(** ** Setters on a handle without the hardware *)

(** C9. With [hf_attenuator_levels = 0] (no attenuator, as for a model id
    outside the enumeration) [sddc_set_hf_attenuation] returns 0 for every
    value, makes no call, prints nothing and leaves the handle as it was;
    so does [sddc_set_hf_vga_gain] with [hf_vga_levels = 0]. *)
Theorem setters_without_hardware_succeed this w :
  (hf_attenuator_levels this = 0 ->
   forall attenuation,
     sddc_set_hf_attenuation this attenuation w = (0, this, w)) /\
  (hf_vga_levels this = 0 ->
   forall idx, sddc_set_hf_vga_gain this idx w = (0, this, w)) /\
  (forall usb_device data,
     this = sddc_new usb_device data ->
     ~ In (model this) [HW_BBRF103; HW_HF103; HW_RX888; HW_RX888R2] ->
     hf_attenuator_levels this = 0 /\ hf_vga_levels this = 0).
Proof.
  repeat split.
  - intros H attenuation. unfold sddc_set_hf_attenuation. now rewrite H.
  - intros H idx. unfold sddc_set_hf_vga_gain. now rewrite H.
  - subst this. now apply sddc_new_unknown_model.
  - subst this. now apply sddc_new_unknown_model.
Qed.

(** ** Frequency correction *)

(** C6. [sddc_set_frequency_correction] returns [-1] and leaves the handle
    as it was whenever the status is STREAMING; in every other status it
    returns 0 and stores exactly the requested value, which
    [sddc_get_frequency_correction] then returns; no other field changes
    and no call is made. *)
Theorem set_frequency_correction_spec this correction w :
  (status this = SDDC_STATUS_STREAMING ->
   let '(ret, this', w') :=
     sddc_set_frequency_correction this correction w in
   ret = -1 /\ this' = this /\ trace w' = trace w) /\
  (status this <> SDDC_STATUS_STREAMING ->
   let '(ret, this', w') :=
     sddc_set_frequency_correction this correction w in
   ret = 0 /\ sddc_get_frequency_correction this' = correction /\
   this' = set_freq_corr_ppm correction this /\ w' = w).
Proof.
  unfold sddc_set_frequency_correction. split; intros H.
  - rewrite H. run. auto.
  - destruct (status this); try congruence; run; auto.
Qed.

(** ** Starting and stopping the stream *)

Lemma all_or_nothing_done this good w :
  all_or_nothing this good w (pure (0, good) w).
Proof. exists []. cbn. now rewrite app_nil_r. Qed.

(** A checked call followed by [if (ret < 0) { fprintf; return -1; }]. *)
Lemma all_or_nothing_checked c msg (k : M (Z * sddc_t)) this good w :
  checked c = true ->
  (forall w1, trace w1 = trace w ++ [c] -> all_or_nothing this good w1 (k w1)) ->
  all_or_nothing this good w
    ((ret <- extern c ;;
      if ret <? 0 then fprintf_stderr msg [] ;; pure (-1, this) else k) w).
Proof.
  intros Hc Hk. run.
  destruct (returns env (trace w) c <? 0) eqn:Hret; cbn.
  - exists [c]. split; [reflexivity|]. cbn. rewrite Hc. cbn.
    apply Z.ltb_lt in Hret.
    destruct (0 <=? returns env (trace w) c) eqn:Hge; [lia|]. cbn. auto.
  - specialize (Hk (mk_world (trace w ++ [c]) (stderr w)) eq_refl).
    unfold all_or_nothing in *.
    destruct (k _) as [[ret this'] w']. cbn in Hk.
    destruct Hk as (cs & Htr & Hout).
    exists (c :: cs). split.
    + rewrite Htr, <- app_assoc. reflexivity.
    + cbn. rewrite Hc. cbn.
      apply Z.ltb_ge in Hret. apply Z.leb_le in Hret. rewrite Hret. exact Hout.
Qed.

(** A call whose result is not looked at. *)
Lemma all_or_nothing_unchecked c (k : M (Z * sddc_t)) this good w :
  checked c = false ->
  (forall w1, trace w1 = trace w ++ [c] -> all_or_nothing this good w1 (k w1)) ->
  all_or_nothing this good w ((_ <- extern c ;; k) w).
Proof.
  intros Hc Hk. run.
  specialize (Hk (mk_world (trace w ++ [c]) (stderr w)) eq_refl).
  unfold all_or_nothing in *.
  destruct (k _) as [[ret this'] w']. cbn in Hk.
  destruct Hk as (cs & Htr & Hout).
  exists (c :: cs). split.
  - rewrite Htr, <- app_assoc. reflexivity.
  - cbn. rewrite Hc. exact Hout.
Qed.

Lemma start_the_producer_outcome this w :
  all_or_nothing this (set_status SDDC_STATUS_STREAMING this) w
    (start_the_producer this w).
Proof.
  unfold start_the_producer.
  apply all_or_nothing_checked; [reflexivity|].
  intros w1 _. apply all_or_nothing_done.
Qed.

Lemma start_async_streaming_outcome this w :
  all_or_nothing this (set_status SDDC_STATUS_STREAMING this) w
    (start_async_streaming this w).
Proof.
  unfold start_async_streaming.
  destruct (negb (streaming this =? 0)).
  - apply all_or_nothing_unchecked; [reflexivity|]. intros w1 _.
    apply all_or_nothing_checked; [reflexivity|]. intros w2 _.
    apply start_the_producer_outcome.
  - apply start_the_producer_outcome.
Qed.

Lemma start_initialize_tuner_outcome this w :
  all_or_nothing this (set_status SDDC_STATUS_STREAMING this) w
    (start_initialize_tuner this w).
Proof.
  unfold start_initialize_tuner.
  destruct (RFMode_eqb (rf_mode this) VHF_MODE).
  - apply all_or_nothing_checked; [reflexivity|]. intros w1 _.
    apply start_async_streaming_outcome.
  - apply start_async_streaming_outcome.
Qed.

Lemma stop_adc_outcome this w :
  all_or_nothing this (set_status SDDC_STATUS_READY this) w (stop_adc this w).
Proof.
  unfold stop_adc.
  apply all_or_nothing_checked; [reflexivity|].
  intros w1 _. apply all_or_nothing_done.
Qed.

Lemma stop_tuner_outcome this w :
  all_or_nothing this (set_status SDDC_STATUS_READY this) w
    (stop_tuner this w).
Proof.
  unfold stop_tuner.
  destruct (RFMode_eqb (rf_mode this) VHF_MODE).
  - apply all_or_nothing_checked; [reflexivity|]. intros w1 _.
    apply stop_adc_outcome.
  - apply stop_adc_outcome.
Qed.

Lemma stop_async_streaming_outcome this w :
  all_or_nothing this (set_status SDDC_STATUS_READY this) w
    (stop_async_streaming this w).
Proof.
  unfold stop_async_streaming.
  destruct (negb (streaming this =? 0)).
  - apply all_or_nothing_checked; [reflexivity|]. intros w1 _.
    apply all_or_nothing_unchecked; [reflexivity|]. intros w2 _.
    apply stop_tuner_outcome.
  - apply stop_tuner_outcome.
Qed.

Lemma SDDCStatus_eqb_eq a b : SDDCStatus_eqb a b = true <-> a = b.
Proof. destruct a, b; cbn; split; congruence. Qed.

(** Outside READY a start, and outside STREAMING a stop, returns [-1]
    without a call; otherwise the result and the status go by whether every
    checked call that was made succeeded. *)
Lemma streaming_returns_by_calls this w :
  (status this <> SDDC_STATUS_READY ->
   let '(ret, this', w') := sddc_start_streaming this w in
   ret = -1 /\ this' = this /\ trace w' = trace w) /\
  (status this <> SDDC_STATUS_STREAMING ->
   let '(ret, this', w') := sddc_stop_streaming this w in
   ret = -1 /\ this' = this /\ trace w' = trace w) /\
  (status this = SDDC_STATUS_READY ->
   let '(ret, this', w') := sddc_start_streaming this w in
   exists cs,
     trace w' = trace w ++ cs /\
     if all_succeed env (trace w) cs then
       ret = 0 /\ sddc_get_status this' = SDDC_STATUS_STREAMING
     else
       ret = -1 /\ this' = this /\ sddc_get_status this' = SDDC_STATUS_READY) /\
  (status this = SDDC_STATUS_STREAMING ->
   let '(ret, this', w') := sddc_stop_streaming this w in
   exists cs,
     trace w' = trace w ++ cs /\
     if all_succeed env (trace w) cs then
       ret = 0 /\ sddc_get_status this' = SDDC_STATUS_READY
     else
       ret = -1 /\ this' = this /\
       sddc_get_status this' = SDDC_STATUS_STREAMING).
Proof.
  repeat split.
  - intros H. unfold sddc_start_streaming.
    destruct (SDDCStatus_eqb _ _) eqn:E;
      [apply SDDCStatus_eqb_eq in E; contradiction|].
    run. auto.
  - intros H. unfold sddc_stop_streaming.
    destruct (SDDCStatus_eqb _ _) eqn:E;
      [apply SDDCStatus_eqb_eq in E; contradiction|].
    run. auto.
  - intros H.
    assert (Hout : all_or_nothing this
              (set_status SDDC_STATUS_STREAMING this) w
              (sddc_start_streaming this w)).
    { unfold sddc_start_streaming. rewrite H. cbn [SDDCStatus_eqb negb].
      apply all_or_nothing_checked; [reflexivity|]. intros w1 _.
      apply start_initialize_tuner_outcome. }
    unfold all_or_nothing in Hout.
    destruct (sddc_start_streaming this w) as [[ret this'] w'].
    destruct Hout as (cs & Htr & Hout). exists cs. split; [exact Htr|].
    destruct (all_succeed env (trace w) cs).
    + destruct Hout as [-> ->]. auto.
    + destruct Hout as [-> ->]. auto.
  - intros H.
    assert (Hout : all_or_nothing this
              (set_status SDDC_STATUS_READY this) w
              (sddc_stop_streaming this w)).
    { unfold sddc_stop_streaming. rewrite H. cbn [SDDCStatus_eqb negb].
      apply all_or_nothing_checked; [reflexivity|]. intros w1 _.
      apply stop_async_streaming_outcome. }
    unfold all_or_nothing in Hout.
    destruct (sddc_stop_streaming this w) as [[ret this'] w'].
    destruct Hout as (cs & Htr & Hout). exists cs. split; [exact Htr|].
    destruct (all_succeed env (trace w) cs).
    + destruct Hout as [-> ->]. auto.
    + destruct Hout as [-> ->]. auto.
Qed.

(** ** Nearest entry of an attenuation table *)

Section Nearest.

Variable table : list double.
Variable attenuation : double.

Lemma first_nearest_keep i idx :
  first_nearest table attenuation i idx ->
  (distance table attenuation i <? distance table attenuation idx)%float
    = false ->
  first_nearest table attenuation (i + 1) idx.
Proof.
  unfold first_nearest. cbv zeta.
  intros (Hidx & Hmin & Hfirst) Hi. repeat split; try lia; trivial.
  intros j Hj. destruct (Z.eq_dec j i) as [->|]; [exact Hi|].
  apply Hmin. lia.
Qed.

Lemma first_nearest_move i idx :
  first_nearest table attenuation i idx ->
  (distance table attenuation i <? distance table attenuation idx)%float
    = true ->
  first_nearest table attenuation (i + 1) i.
Proof.
  unfold first_nearest. cbv zeta.
  intros (Hidx & Hmin & Hfirst) Hi. repeat split; try lia.
  - intros j Hj. destruct (Z.eq_dec j i) as [->|]; [apply ltb_irrefl|].
    destruct (distance table attenuation j <? distance table attenuation i)%float
      eqn:Hji; trivial.
    rewrite <- (Hmin j ltac:(lia)). symmetry.
    now apply ltb_trans with (distance table attenuation i).
  - intros j Hj.
    destruct (distance table attenuation j <=? distance table attenuation i)%float
      eqn:Hji; trivial.
    rewrite <- (Hmin j ltac:(lia)). symmetry.
    now apply leb_ltb_trans with (distance table attenuation i).
Qed.

Lemma attenuation_loop_first_nearest n i idx :
  first_nearest table attenuation i idx -> i + Z.of_nat n <= 2 ^ 16 ->
  let '(idx', idx_att') :=
    attenuation_loop table attenuation n i idx
      (distance table attenuation idx) in
  first_nearest table attenuation (i + Z.of_nat n) idx' /\
  idx_att' = distance table attenuation idx'.
Proof.
  revert i idx. induction n as [|n IH]; intros i idx Hinv Hbound.
  - cbn [attenuation_loop]. rewrite Z.add_0_r. auto.
  - cbn [attenuation_loop].
    assert (Hi : Cast.to_uint16 i = i).
    { unfold Cast.to_uint16. apply Z.mod_small.
      destruct Hinv as (? & _). lia. }
    replace (i + Z.of_nat (S n)) with (i + 1 + Z.of_nat n) by lia.
    destruct (distance table attenuation i <? distance table attenuation idx)%float
      eqn:Hlt.
    + rewrite Hi. apply IH; [|lia].
      now apply first_nearest_move with idx.
    + apply IH; [|lia]. now apply first_nearest_keep.
Qed.

(** The index the setters write is the first nearest one of the whole
    table. *)
Lemma attenuation_index_first_nearest :
  1 <= Z.of_nat (List.length table) <= 2 ^ 16 ->
  first_nearest table attenuation (Z.of_nat (List.length table))
    (attenuation_index table attenuation).
Proof.
  intros Hlen. unfold attenuation_index.
  assert (H0 : first_nearest table attenuation 1 0).
  { unfold first_nearest. cbv zeta. repeat split; try lia.
    intros j Hj. replace j with 0 by lia. apply ltb_irrefl. }
  pose proof (attenuation_loop_first_nearest
                (Z.to_nat (Z.of_nat (List.length table) - 1)) 1 0 H0) as H.
  destruct (attenuation_loop _ _ _ _ _ _) as [idx' att'].
  cbn [fst].
  replace (1 + Z.of_nat (Z.to_nat (Z.of_nat (List.length table) - 1)))
    with (Z.of_nat (List.length table)) in H by lia.
  apply H. lia.
Qed.

End Nearest.

(** C4. For every requested value [sddc_set_tuner_rf_attenuation] writes
    to the register [FW_REG_R82XX_ATTENUATOR] an index of the 29-entry
    table at which [fabs(attenuation - table[i])] is least, the lowest
    such index; when the write succeeds it returns 0 and reports
    [table[idx]], otherwise it returns [-1].  For 5.0 the index is 4,
    whose entry is 3.7. *)
Theorem set_tuner_rf_attenuation_nearest this attenuation w :
  let table := tuner_rf_attenuations_table in
  let d := distance table attenuation in
  let idx := attenuation_index table attenuation in
  let write :=
    usb_device_set_fw_register (usb_device this) FW_REG_R82XX_ATTENUATOR
      idx in
  List.length table = 29%nat /\
  0 <= idx < 29 /\
  (forall j, 0 <= j < 29 -> (d j <? d idx)%float = false) /\
  (forall j, 0 <= j < idx -> (d j <=? d idx)%float = false) /\
  (let '(ret, this', w') :=
     sddc_set_tuner_rf_attenuation this attenuation w in
   trace w' = trace w ++ [write] /\
   (0 <= returns env (trace w) write ->
    ret = 0 /\
    stderr w' =
      stderr w ++
      [mk_message "INFO - RF tuner attenuation set to %.1f\n"
         [arg_double (nth (Z.to_nat idx) table 0%float)]]) /\
   (returns env (trace w) write < 0 -> ret = -1)) /\
  attenuation_index table 5.0 = 4 /\
  nth 4 table 0%float = 3.7%float.
Proof.
  intros table d idx write.
  destruct (attenuation_index_first_nearest table attenuation)
    as (Hidx & Hmin & Hfirst).
  { cbn. lia. }
  change (Z.of_nat (List.length table)) with 29 in *.
  repeat split; trivial; try apply Hidx.
  unfold sddc_set_tuner_rf_attenuation. run.
  fold table. fold idx. fold write.
  destruct (returns env (trace w) write <? 0) eqn:Hret; cbn.
  - apply Z.ltb_lt in Hret. repeat split; trivial; lia.
  - apply Z.ltb_ge in Hret. repeat split; trivial; lia.
Qed.

(** ** HF attenuation and VGA gain *)

(** The [switch] of the 3-level attenuator, as comparisons. *)
Lemma att_switch_eqb (k : Z) :
  match k with
  | 0 => Some GPIO_ATT_SEL1
  | 10 => Some (Z.lor GPIO_ATT_SEL0 GPIO_ATT_SEL1)
  | 20 => Some GPIO_ATT_SEL0
  | _ => None
  end =
  if k =? 0 then Some GPIO_ATT_SEL1
  else if k =? 10 then Some (Z.lor GPIO_ATT_SEL0 GPIO_ATT_SEL1)
  else if k =? 20 then Some GPIO_ATT_SEL0
  else None.
Proof.
  destruct k as [|p|p]; try reflexivity.
  do 5 (try destruct p as [p|p|]; try reflexivity).
Qed.

(** A conversion is the integral part whenever that fits the type. *)
Lemma of_double_fits t x z :
  Cast.trunc x = Some z -> Cast.min_of t <= z <= Cast.max_of t ->
  Cast.of_double undefined_conversion t x = z.
Proof.
  intros Hx Hz. unfold Cast.of_double. rewrite Hx.
  destruct (Z.leb_spec (Cast.min_of t) z); [|lia].
  destruct (Z.leb_spec z (Cast.max_of t)); [|lia].
  reflexivity.
Qed.

(** C3, as the code has it. On a handle with a 3-level attenuator,
    [sddc_set_hf_attenuation] accepts exactly the values whose conversion
    to [int] (the integral part, for a value that fits) is 0, 10 or 20:
    it then stores the value as given, and sets the two select bits to
    one of three distinct patterns; for every other value it returns [-1],
    leaves the handle (and its [hf_attenuation]) as it was and makes no
    call. *)
Theorem set_hf_attenuation_3_levels this attenuation w :
  hf_attenuator_levels this = 3 ->
  let k := to_int attenuation in
  let mask := Z.lor GPIO_ATT_SEL0 GPIO_ATT_SEL1 in
  let '(ret, this', w') := sddc_set_hf_attenuation this attenuation w in
  (In k [0; 10; 20] ->
   exists bit_pattern,
     ((k = 0 /\ bit_pattern = GPIO_ATT_SEL1) \/
      (k = 10 /\ bit_pattern = mask) \/
      (k = 20 /\ bit_pattern = GPIO_ATT_SEL0)) /\
     this' = set_hf_attenuation attenuation this /\
     sddc_get_hf_attenuation this' = attenuation /\
     trace w' =
       trace w ++ [usb_device_gpio_set (usb_device this) bit_pattern mask] /\
     ret = returns env (trace w)
             (usb_device_gpio_set (usb_device this) bit_pattern mask)) /\
  (~ In k [0; 10; 20] ->
   ret = -1 /\ this' = this /\
   sddc_get_hf_attenuation this' = sddc_get_hf_attenuation this /\
   trace w' = trace w) /\
  (forall z, Cast.trunc attenuation = Some z -> - 2 ^ 31 <= z < 2 ^ 31 ->
             k = z) /\
  (GPIO_ATT_SEL1 <> mask /\ mask <> GPIO_ATT_SEL0 /\
   GPIO_ATT_SEL1 <> GPIO_ATT_SEL0 /\
   Z.land GPIO_ATT_SEL1 mask = GPIO_ATT_SEL1 /\
   Z.land GPIO_ATT_SEL0 mask = GPIO_ATT_SEL0).
Proof.
  intros H k mask. unfold sddc_set_hf_attenuation. rewrite H.
  change (3 =? 0) with false. change (3 =? 3) with true. cbv iota.
  fold k. rewrite att_switch_eqb.
  assert (Hfit : forall z, Cast.trunc attenuation = Some z ->
                           - 2 ^ 31 <= z < 2 ^ 31 -> k = z).
  { intros z Hz Hr. apply of_double_fits; trivial. cbn. lia. }
  assert (Hpat : GPIO_ATT_SEL1 <> mask /\ mask <> GPIO_ATT_SEL0 /\
                 GPIO_ATT_SEL1 <> GPIO_ATT_SEL0 /\
                 Z.land GPIO_ATT_SEL1 mask = GPIO_ATT_SEL1 /\
                 Z.land GPIO_ATT_SEL0 mask = GPIO_ATT_SEL0).
  { cbv. repeat split; congruence. }
  destruct (Z.eqb_spec k 0) as [E0|N0];
    [|destruct (Z.eqb_spec k 10) as [E10|N10];
      [|destruct (Z.eqb_spec k 20) as [E20|N20]]];
    run; (split; [|split; [|split; [exact Hfit|exact Hpat]]]).
  - intros _. exists GPIO_ATT_SEL1. repeat split; auto.
  - intros Hn. exfalso. apply Hn. rewrite E0. cbn. auto.
  - intros _. exists mask. repeat split; auto.
  - intros Hn. exfalso. apply Hn. rewrite E10. cbn. auto.
  - intros _. exists GPIO_ATT_SEL0. repeat split; auto.
  - intros Hn. exfalso. apply Hn. rewrite E20. cbn. auto.
  - intros [E|[E|[E|[]]]]; congruence.
  - intros _. repeat split.
Qed.

(** The 32-level attenuator writes to [FW_REG_DAT31_ATT], or nothing. *)
Lemma set_hf_attenuation_32_levels this attenuation w :
  hf_attenuator_levels this = 32 ->
  let '(ret, this', w') := sddc_set_hf_attenuation this attenuation w in
  (ret = -1 /\ this' = this /\ trace w' = trace w) \/
  (exists v,
     this' = set_hf_attenuation attenuation this /\
     trace w' =
       trace w ++
       [usb_device_set_fw_register (usb_device this) FW_REG_DAT31_ATT v]).
Proof.
  intros H. unfold sddc_set_hf_attenuation. rewrite H.
  change (32 =? 0) with false. change (32 =? 3) with false.
  change (32 =? 32) with true. cbv iota.
  destruct (_ || _); run.
  - left. auto.
  - right. eexists. split; reflexivity.
Qed.

(** C7, as the code has it. On a handle with a 64-level attenuator,
    [sddc_set_hf_attenuation] accepts every value from 0.0 to 31.5, returns
    [-1] for every value below 0.0 or above 31.5, and writes to
    [FW_REG_DAT31_ATT] (the register of the 32-level class) the value times
    two converted to [uint16_t]: its integral part, the fraction dropped,
    not the nearest integer. *)
Theorem set_hf_attenuation_64_levels this attenuation w :
  hf_attenuator_levels this = 64 ->
  let write :=
    usb_device_set_fw_register (usb_device this) FW_REG_DAT31_ATT
      (to_uint16 (attenuation * 2)%float) in
  let '(ret, this', w') := sddc_set_hf_attenuation this attenuation w in
  ((0 <=? attenuation)%float = true /\ (attenuation <=? 31.5)%float = true ->
   this' = set_hf_attenuation attenuation this /\
   trace w' = trace w ++ [write] /\
   ret = returns env (trace w) write) /\
  ((attenuation <? 0)%float = true \/ (31.5 <? attenuation)%float = true ->
   ret = -1 /\ this' = this /\ trace w' = trace w) /\
  (forall z, Cast.trunc (attenuation * 2)%float = Some z ->
             0 <= z <= 65535 ->
             to_uint16 (attenuation * 2)%float = z) /\
  (forall this32 attenuation32 w32,
     hf_attenuator_levels this32 = 32 ->
     let '(_, _, w32') :=
       sddc_set_hf_attenuation this32 attenuation32 w32 in
     trace w32' = trace w32 \/
     exists v,
       trace w32' =
         trace w32 ++
         [usb_device_set_fw_register (usb_device this32) FW_REG_DAT31_ATT
            v]).
Proof.
  intros H write.
  assert (H32 : forall this32 attenuation32 w32,
     hf_attenuator_levels this32 = 32 ->
     let '(_, _, w32') :=
       sddc_set_hf_attenuation this32 attenuation32 w32 in
     trace w32' = trace w32 \/
     exists v,
       trace w32' =
         trace w32 ++
         [usb_device_set_fw_register (usb_device this32) FW_REG_DAT31_ATT
            v]).
  { intros this32 a32 w32 Hl.
    pose proof (set_hf_attenuation_32_levels this32 a32 w32 Hl) as Hc.
    destruct (sddc_set_hf_attenuation this32 a32 w32) as [[r t] w'].
    destruct Hc as [(_ & _ & Ht)|(v & _ & Ht)]; [left|right; exists v];
      exact Ht. }
  assert (Hfit : forall z, Cast.trunc (attenuation * 2)%float = Some z ->
             0 <= z <= 65535 -> to_uint16 (attenuation * 2)%float = z).
  { intros z Hz Hr. apply of_double_fits; trivial. }
  unfold sddc_set_hf_attenuation. rewrite H.
  change (64 =? 0) with false. change (64 =? 3) with false.
  change (64 =? 32) with false. change (64 =? 64) with true. cbv iota.
  destruct (attenuation <? 0.0)%float eqn:Hlo;
    [|destruct (31.5 <? attenuation)%float eqn:Hhi]; run;
    (split; [|split; [|split; [exact Hfit|exact H32]]]).
  - intros [Hge _]. apply leb_not_gtb in Hge. congruence.
  - auto.
  - intros [_ Hle]. apply leb_not_gtb in Hle. congruence.
  - auto.
  - intros _. repeat split.
  - intros [?|?]; congruence.
Qed.

(** ** What the setters store *)

(** [sddc_set_hf_attenuation] either makes no call and leaves the handle
    as it was, or makes one call and has stored the value by then. *)
Lemma set_hf_attenuation_stores this attenuation w :
  let '(ret, this', w') := sddc_set_hf_attenuation this attenuation w in
  (trace w' = trace w /\ this' = this) \/
  (exists c,
     trace w' = trace w ++ [c] /\ ret = returns env (trace w) c /\
     this' = set_hf_attenuation attenuation this /\
     sddc_get_hf_attenuation this' = attenuation).
Proof.
  unfold sddc_set_hf_attenuation.
  destruct (_ =? 0); [left; run; auto|].
  destruct (_ =? 3).
  { destruct (match to_int attenuation with 0 => _ | _ => _ end); run.
    - right. eexists. repeat split.
    - left. auto. }
  destruct (_ =? 32).
  { destruct (_ || _); run; [left; auto|right; eexists; repeat split]. }
  destruct (_ =? 64).
  { destruct (_ || _); run; [left; auto|right; eexists; repeat split]. }
  left. run. auto.
Qed.

Lemma set_hf_vga_gain_stores this idx w :
  let '(ret, this', w') := sddc_set_hf_vga_gain this idx w in
  (trace w' = trace w /\ this' = this) \/
  (exists c,
     trace w' = trace w ++ [c] /\ ret = returns env (trace w) c /\
     this' = set_hf_vga_gain idx this /\ hf_vga_gain this' = idx).
Proof.
  unfold sddc_set_hf_vga_gain.
  destruct (_ =? 0); [left; run; auto|].
  destruct (_ =? 127).
  { destruct (_ || _); run; [left; auto|right; eexists; repeat split]. }
  left. run. auto.
Qed.

Lemma set_tuner_frequency_stores this frequency w :
  let c :=
    usb_device_control (usb_device this) R82XXTUNE 0 0
      (bytes_of_uint64 (to_uint64 frequency)) in
  let '(ret, this', w') := sddc_set_tuner_frequency this frequency w in
  trace w' = trace w ++ [c] /\
  (0 <= returns env (trace w) c ->
   ret = 0 /\ this' = set_tuner_frequency frequency this /\
   sddc_get_tuner_frequency this' = frequency) /\
  (returns env (trace w) c < 0 -> ret = -1 /\ this' = this).
Proof.
  unfold sddc_set_tuner_frequency. run.
  destruct (_ <? 0) eqn:Hret; cbn; (split; [reflexivity|]).
  - apply Z.ltb_lt in Hret. split; [lia|auto].
  - apply Z.ltb_ge in Hret. split; [auto|lia].
Qed.

(** The tuner attenuation setters write an index to a firmware register
    and store nothing in the handle. *)
Lemma set_tuner_attenuation_stores_nothing this attenuation w :
  (let '(ret, this', w') :=
     sddc_set_tuner_rf_attenuation this attenuation w in
   this' = this /\
   trace w' =
     trace w ++
     [usb_device_set_fw_register (usb_device this) FW_REG_R82XX_ATTENUATOR
        (attenuation_index tuner_rf_attenuations_table attenuation)]) /\
  (let '(ret, this', w') :=
     sddc_set_tuner_if_attenuation this attenuation w in
   this' = this /\
   trace w' =
     trace w ++
     [usb_device_set_fw_register (usb_device this) FW_REG_R82XX_VGA
        (attenuation_index tuner_if_attenuations_table attenuation)]).
Proof.
  unfold sddc_set_tuner_rf_attenuation, sddc_set_tuner_if_attenuation. run.
  split; destruct (_ <? 0); cbn; auto.
Qed.

(** C5, as the code has it. The setters of the HF attenuation and of
    the VGA gain store the requested value whenever they make their write
    (before its result is known) and leave the handle as it was when they
    make none; the tuner frequency is stored exactly when its transfer
    succeeds; the sample rate always; the frequency correction unless the
    status is STREAMING, when the handle stays as it was.  The setters of
    the tuner RF and IF attenuation store nothing in the handle: they write
    the index of the nearest table entry to a firmware register. *)
Theorem setters_store this w :
  (forall attenuation,
     let '(ret, this', w') := sddc_set_hf_attenuation this attenuation w in
     (trace w' = trace w /\ this' = this) \/
     (exists c,
        trace w' = trace w ++ [c] /\ ret = returns env (trace w) c /\
        this' = set_hf_attenuation attenuation this /\
        sddc_get_hf_attenuation this' = attenuation)) /\
  (forall idx,
     let '(ret, this', w') := sddc_set_hf_vga_gain this idx w in
     (trace w' = trace w /\ this' = this) \/
     (exists c,
        trace w' = trace w ++ [c] /\ ret = returns env (trace w) c /\
        this' = set_hf_vga_gain idx this /\ hf_vga_gain this' = idx)) /\
  (forall frequency,
     let c :=
       usb_device_control (usb_device this) R82XXTUNE 0 0
         (bytes_of_uint64 (to_uint64 frequency)) in
     let '(ret, this', w') := sddc_set_tuner_frequency this frequency w in
     trace w' = trace w ++ [c] /\
     (0 <= returns env (trace w) c ->
      ret = 0 /\ this' = set_tuner_frequency frequency this /\
      sddc_get_tuner_frequency this' = frequency) /\
     (returns env (trace w) c < 0 -> ret = -1 /\ this' = this)) /\
  (forall sample_rate,
     let '(ret, this') := sddc_set_sample_rate this sample_rate in
     ret = 0 /\ this' = set_sample_rate sample_rate this) /\
  (forall correction,
     let '(ret, this', w') :=
       sddc_set_frequency_correction this correction w in
     (status this = SDDC_STATUS_STREAMING /\ ret = -1 /\ this' = this) \/
     (status this <> SDDC_STATUS_STREAMING /\ ret = 0 /\
      this' = set_freq_corr_ppm correction this /\
      sddc_get_frequency_correction this' = correction)) /\
  (forall attenuation,
     let '(ret, this', w') :=
       sddc_set_tuner_rf_attenuation this attenuation w in
     this' = this /\
     trace w' =
       trace w ++
       [usb_device_set_fw_register (usb_device this)
          FW_REG_R82XX_ATTENUATOR
          (attenuation_index tuner_rf_attenuations_table attenuation)]) /\
  (forall attenuation,
     let '(ret, this', w') :=
       sddc_set_tuner_if_attenuation this attenuation w in
     this' = this /\
     trace w' =
       trace w ++
       [usb_device_set_fw_register (usb_device this) FW_REG_R82XX_VGA
          (attenuation_index tuner_if_attenuations_table attenuation)]).
Proof.
  split; [intros a; apply set_hf_attenuation_stores|].
  split; [intros i; apply set_hf_vga_gain_stores|].
  split; [intros f; apply set_tuner_frequency_stores|].
  split; [intros r; cbn; auto|].
  split.
  { intros c. unfold sddc_set_frequency_correction.
    destruct (status this) eqn:Hs; run;
      solve [left; auto | right; repeat split; congruence]. }
  split; intros a; apply set_tuner_attenuation_stores_nothing.
Qed.

(** ** The order of the calls when streaming starts and stops *)

Lemma fail_fast_done this good w :
  fail_fast [] this good w (pure (0, good) w).
Proof. left. cbn. rewrite app_nil_r. auto. Qed.

Lemma fail_fast_checked c msg (k : M (Z * sddc_t)) plan this good w :
  checked c = true ->
  (forall w1, trace w1 = trace w ++ [c] -> fail_fast plan this good w1 (k w1)) ->
  fail_fast (c :: plan) this good w
    ((ret <- extern c ;;
      if ret <? 0 then fprintf_stderr msg [] ;; pure (-1, this) else k) w).
Proof.
  intros Hc Hk. run.
  destruct (returns env (trace w) c <? 0) eqn:Hret; cbn.
  - right. repeat split. exists [], c, plan. cbn. rewrite app_nil_r.
    apply Z.ltb_lt in Hret. auto.
  - specialize (Hk (mk_world (trace w ++ [c]) (stderr w)) eq_refl).
    apply Z.ltb_ge in Hret. apply Z.leb_le in Hret.
    unfold fail_fast in *. destruct (k _) as [[ret this'] w']. cbn in Hk.
    destruct Hk as [(-> & -> & Htr & Hall)
                   |(-> & -> & before & c' & after & -> & Htr & Hall & Hc' & Hf)].
    + left. repeat split.
      * rewrite Htr, <- app_assoc. reflexivity.
      * cbn. rewrite Hc, Hret. exact Hall.
    + right. repeat split. exists (c :: before), c', after. repeat split.
      * rewrite Htr, <- app_assoc. reflexivity.
      * cbn. rewrite Hc, Hret. exact Hall.
      * exact Hc'.
      * rewrite <- app_assoc in Hf. exact Hf.
Qed.

Lemma fail_fast_unchecked c (k : M (Z * sddc_t)) plan this good w :
  checked c = false ->
  (forall w1, trace w1 = trace w ++ [c] -> fail_fast plan this good w1 (k w1)) ->
  fail_fast (c :: plan) this good w ((_ <- extern c ;; k) w).
Proof.
  intros Hc Hk. run.
  specialize (Hk (mk_world (trace w ++ [c]) (stderr w)) eq_refl).
  unfold fail_fast in *. destruct (k _) as [[ret this'] w']. cbn in Hk.
  destruct Hk as [(-> & -> & Htr & Hall)
                 |(-> & -> & before & c' & after & -> & Htr & Hall & Hc' & Hf)].
  - left. repeat split.
    + rewrite Htr, <- app_assoc. reflexivity.
    + cbn. rewrite Hc. exact Hall.
  - right. repeat split. exists (c :: before), c', after. repeat split.
    + rewrite Htr, <- app_assoc. reflexivity.
    + cbn. rewrite Hc. exact Hall.
    + exact Hc'.
    + rewrite <- app_assoc in Hf. exact Hf.
Qed.

Lemma start_follows_plan this w :
  status this = SDDC_STATUS_READY ->
  fail_fast (start_plan this) this (set_status SDDC_STATUS_STREAMING this) w
    (sddc_start_streaming this w).
Proof.
  intros H. unfold sddc_start_streaming, start_plan. rewrite H.
  cbn [SDDCStatus_eqb negb app].
  apply fail_fast_checked; [reflexivity|]. intros w1 _.
  unfold start_initialize_tuner, start_async_streaming, start_the_producer.
  destruct (RFMode_eqb (rf_mode this) VHF_MODE);
    destruct (negb (streaming this =? 0)); cbn [app];
    repeat first
      [ apply fail_fast_done
      | apply fail_fast_checked; [reflexivity|]; intros ? _
      | apply fail_fast_unchecked; [reflexivity|]; intros ? _ ].
Qed.

Lemma stop_follows_plan this w :
  status this = SDDC_STATUS_STREAMING ->
  fail_fast (stop_plan this) this (set_status SDDC_STATUS_READY this) w
    (sddc_stop_streaming this w).
Proof.
  intros H. unfold sddc_stop_streaming, stop_plan. rewrite H.
  cbn [SDDCStatus_eqb negb app].
  apply fail_fast_checked; [reflexivity|]. intros w1 _.
  unfold stop_async_streaming, stop_tuner, stop_adc.
  destruct (RFMode_eqb (rf_mode this) VHF_MODE);
    destruct (negb (streaming this =? 0)); cbn [app];
    repeat first
      [ apply fail_fast_done
      | apply fail_fast_checked; [reflexivity|]; intros ? _
      | apply fail_fast_unchecked; [reflexivity|]; intros ? _ ].
Qed.

(** X1. From READY, [sddc_start_streaming] makes its calls in the order
    ADC start, tuner initialisation (VHF only), session sample rate and
    session start (when a session exists), producer start, and stops at the
    first one that fails: it returns 0 with status STREAMING exactly after
    the whole list, and [-1] with the handle as it was right after the
    failing call. *)
Theorem start_streaming_fail_fast this w :
  status this = SDDC_STATUS_READY ->
  fail_fast (start_plan this) this (set_status SDDC_STATUS_STREAMING this) w
    (sddc_start_streaming this w).
Proof. exact (start_follows_plan this w). Qed.

(** X2. From STREAMING, [sddc_stop_streaming] makes its calls in the
    order producer stop, session stop and session close (when a session
    exists), tuner standby (VHF only), ADC shutdown, and stops at the first
    one that fails: the session is closed only after it stopped, and the
    status becomes READY only after the whole list. *)
Theorem stop_streaming_fail_fast this w :
  status this = SDDC_STATUS_STREAMING ->
  fail_fast (stop_plan this) this (set_status SDDC_STATUS_READY this) w
    (sddc_stop_streaming this w).
Proof. exact (stop_follows_plan this w). Qed.

(** C1. [sddc_start_streaming] returns [-1] without touching the handle
    or the transport when the status is not READY, and so does
    [sddc_stop_streaming] when the status is not STREAMING.  From READY, a
    start makes the calls of its list in order (ADC start, tuner
    initialisation in VHF mode, session sample rate and session start when
    a session exists, producer start): when every one succeeds it returns 0
    with status STREAMING, and at the first one that fails it returns [-1]
    with the handle, hence the status READY, as it was.  From STREAMING, a
    stop does the same with its list (producer stop, session stop and close,
    tuner standby in VHF mode, ADC shutdown): 0 with status READY after the
    whole list, [-1] with the status still STREAMING at the first failure. *)
Theorem streaming_status_transitions this w :
  (status this <> SDDC_STATUS_READY ->
   let '(ret, this', w') := sddc_start_streaming this w in
   ret = -1 /\ this' = this /\ trace w' = trace w) /\
  (status this <> SDDC_STATUS_STREAMING ->
   let '(ret, this', w') := sddc_stop_streaming this w in
   ret = -1 /\ this' = this /\ trace w' = trace w) /\
  (status this = SDDC_STATUS_READY ->
   let '(ret, this', w') := sddc_start_streaming this w in
   (ret = 0 /\ this' = set_status SDDC_STATUS_STREAMING this /\
    sddc_get_status this' = SDDC_STATUS_STREAMING /\
    trace w' = trace w ++ start_plan this /\
    all_succeed env (trace w) (start_plan this) = true) \/
   (ret = -1 /\ this' = this /\
    sddc_get_status this' = SDDC_STATUS_READY /\
    exists before c after,
      start_plan this = before ++ c :: after /\
      trace w' = trace w ++ before ++ [c] /\
      all_succeed env (trace w) before = true /\
      checked c = true /\
      returns env (trace w ++ before) c < 0)) /\
  (status this = SDDC_STATUS_STREAMING ->
   let '(ret, this', w') := sddc_stop_streaming this w in
   (ret = 0 /\ this' = set_status SDDC_STATUS_READY this /\
    sddc_get_status this' = SDDC_STATUS_READY /\
    trace w' = trace w ++ stop_plan this /\
    all_succeed env (trace w) (stop_plan this) = true) \/
   (ret = -1 /\ this' = this /\
    sddc_get_status this' = SDDC_STATUS_STREAMING /\
    exists before c after,
      stop_plan this = before ++ c :: after /\
      trace w' = trace w ++ before ++ [c] /\
      all_succeed env (trace w) before = true /\
      checked c = true /\
      returns env (trace w ++ before) c < 0)).
Proof.
  destruct (streaming_returns_by_calls this w) as (Hstart & Hstop & _).
  split; [exact Hstart|]. split; [exact Hstop|]. split; intros H.
  - pose proof (start_follows_plan this w H) as Hp. unfold fail_fast in Hp.
    destruct (sddc_start_streaming this w) as [[ret this'] w'].
    destruct Hp as [(-> & -> & Ht & Ha)|(-> & -> & Hc)].
    + left. repeat split; assumption.
    + right. repeat split; assumption.
  - pose proof (stop_follows_plan this w H) as Hp. unfold fail_fast in Hp.
    destruct (sddc_stop_streaming this w) as [[ret this'] w'].
    destruct Hp as [(-> & -> & Ht & Ha)|(-> & -> & Hc)].
    + left. repeat split; assumption.
    + right. repeat split; assumption.
Qed.

Lemma fail_fast_success plan this good w ret this' w' :
  fail_fast plan this good w (ret, this', w') -> ret = 0 ->
  this' = good /\ trace w' = trace w ++ plan.
Proof.
  intros [(_ & ? & ? & _)|(-> & _)] Hret; [auto|discriminate].
Qed.

Lemma set_status_back this :
  status this = SDDC_STATUS_READY ->
  set_status SDDC_STATUS_READY (set_status SDDC_STATUS_STREAMING this) = this.
Proof. destruct this. cbn. now intros ->. Qed.

(** X3. A start and a stop that both return 0 bring a READY handle back
    to exactly what it was (every field, not only the status), the handle
    in between is STREAMING, and the calls made are the start list followed
    by the stop list. *)
Theorem start_then_stop_restores this w :
  status this = SDDC_STATUS_READY ->
  let '(ret1, this1, w1) := sddc_start_streaming this w in
  let '(ret2, this2, w2) := sddc_stop_streaming this1 w1 in
  ret1 = 0 -> ret2 = 0 ->
  status this1 = SDDC_STATUS_STREAMING /\ this2 = this /\
  trace w2 = trace w ++ start_plan this ++ stop_plan this.
Proof.
  intros H. pose proof (start_follows_plan this w H) as H1.
  destruct (sddc_start_streaming this w) as [[ret1 this1] w1].
  pose proof (stop_follows_plan this1 w1) as H2.
  destruct (sddc_stop_streaming this1 w1) as [[ret2 this2] w2].
  intros Hr1 Hr2.
  destruct (fail_fast_success _ _ _ _ _ _ _ H1 Hr1) as [-> Ht1].
  specialize (H2 eq_refl).
  destruct (fail_fast_success _ _ _ _ _ _ _ H2 Hr2) as [-> Ht2].
  repeat split.
  - now apply set_status_back.
  - rewrite Ht2, Ht1, <- app_assoc. reflexivity.
Qed.

(** X4. [sddc_stop_streaming] closes the session and keeps its address in
    the handle: after a stop that returned 0 on a handle with a session, the
    session was closed, the handle still points to it, no new session can
    be configured ([sddc_set_async_params] returns [-1] without a call), and
    the next start would hand the closed session to [streaming_start]. *)
Theorem stop_keeps_closed_session this w :
  status this = SDDC_STATUS_STREAMING -> streaming this <> 0 ->
  let '(ret, this', w') := sddc_stop_streaming this w in
  ret = 0 ->
  (exists before after,
     trace w' =
       trace w ++ before ++ streaming_close (streaming this) :: after) /\
  streaming this' = streaming this /\
  (forall frame_size num_frames callback callback_context w2,
     let '(ret2, this2, w2') :=
       sddc_set_async_params this' frame_size num_frames callback
         callback_context w2 in
     ret2 = -1 /\ this2 = this' /\ trace w2' = trace w2) /\
  In (streaming_start (streaming this)) (start_plan this').
Proof.
  intros H Hs. pose proof (stop_follows_plan this w H) as H1.
  destruct (sddc_stop_streaming this w) as [[ret this'] w'].
  intros Hr. destruct (fail_fast_success _ _ _ _ _ _ _ H1 Hr) as [-> Ht].
  apply Z.eqb_neq in Hs.
  split; [|split; [|split]].
  - rewrite Ht. unfold stop_plan. rewrite Hs. cbn [negb app].
    exists [usb_device_control (usb_device this) STOPFX3 0 0 no_data;
            streaming_stop (streaming this)].
    eexists. reflexivity.
  - reflexivity.
  - intros frame_size num_frames callback callback_context w2.
    unfold sddc_set_async_params. cbn [set_status streaming].
    rewrite Hs. run. auto.
  - unfold start_plan. cbn [set_status streaming usb_device rf_mode].
    rewrite Hs. cbn [negb].
    apply in_or_app. right. apply in_or_app. right.
    apply in_or_app. left. cbn. auto.
Qed.

(** X5. While the handle is STREAMING the frequency correction cannot be
    changed: after a start that returned 0, [sddc_set_frequency_correction]
    returns [-1] for every value and the handle keeps the correction it was
    started with. *)
Theorem correction_frozen_while_streaming this w :
  status this = SDDC_STATUS_READY ->
  let '(ret, this1, w1) := sddc_start_streaming this w in
  ret = 0 ->
  forall correction w2,
    let '(ret2, this2, w2') :=
      sddc_set_frequency_correction this1 correction w2 in
    ret2 = -1 /\ this2 = this1 /\
    sddc_get_frequency_correction this2 = sddc_get_frequency_correction this.
Proof.
  intros H. pose proof (start_follows_plan this w H) as H1.
  destruct (sddc_start_streaming this w) as [[ret this1] w1].
  intros Hr. destruct (fail_fast_success _ _ _ _ _ _ _ H1 Hr) as [-> _].
  intros correction w2. unfold sddc_set_frequency_correction. run. auto.
Qed.

(** ** One session per handle *)

(** X6. [sddc_set_async_params] opens a session only on a handle without
    one: with a session in place it returns [-1] without a call and leaves
    the handle as it was; otherwise it makes the one call, stores what it
    returned, and returns 0 when that is an address and [-1] when it is
    null.  So after a call that returned 0, every further call fails and
    the handle keeps the first session. *)
Theorem set_async_params_once this frame_size num_frames callback
    callback_context w :
  let opening :=
    streaming_open_async (usb_device this) frame_size num_frames callback
      callback_context in
  let '(ret, this', w') :=
    sddc_set_async_params this frame_size num_frames callback
      callback_context w in
  (streaming this <> 0 ->
   ret = -1 /\ this' = this /\ trace w' = trace w) /\
  (streaming this = 0 ->
   trace w' = trace w ++ [opening] /\
   this' = set_streaming (returns env (trace w) opening) this /\
   (ret = 0 /\ streaming this' <> 0 \/ ret = -1 /\ streaming this' = 0)) /\
  (ret = 0 ->
   streaming this' <> 0 /\
   forall frame_size2 num_frames2 callback2 callback_context2 w2,
     let '(ret2, this2, w2') :=
       sddc_set_async_params this' frame_size2 num_frames2 callback2
         callback_context2 w2 in
     ret2 = -1 /\ this2 = this' /\ trace w2' = trace w2).
Proof.
  intros opening. subst opening. unfold sddc_set_async_params.
  destruct (Z.eqb_spec (streaming this) 0) as [E|N]; run.
  - destruct (Z.eqb_spec (returns env (trace w)
        (streaming_open_async (usb_device this) frame_size num_frames
           callback callback_context)) 0) as [E2|N2]; run.
    + split; [intros; contradiction|]. split; [|discriminate].
      intros _. repeat split. right. auto.
    + split; [intros; contradiction|]. split.
      * intros _. repeat split. left. auto.
      * intros _. split; [exact N2|]. intros.
        apply Z.eqb_neq in N2. rewrite N2. run. auto.
  - split; [auto|]. split; [intros; contradiction|discriminate].
Qed.

(** ** Switching the RF mode *)

Lemma set_hf_attenuation_same this :
  set_hf_attenuation (hf_attenuation this) this = this.
Proof. now destruct this. Qed.

Lemma set_hf_vga_gain_same this :
  set_hf_vga_gain (hf_vga_gain this) this = this.
Proof. now destruct this. Qed.

(** Re-applying the stored attenuation, or the stored gain, returns the
    handle it was given. *)
Lemma reapply_keeps_handle this w :
  snd (fst (sddc_set_hf_attenuation this (hf_attenuation this) w)) = this /\
  snd (fst (sddc_set_hf_vga_gain this (hf_vga_gain this) w)) = this.
Proof.
  split.
  - pose proof (set_hf_attenuation_stores this (hf_attenuation this) w) as H.
    destruct (sddc_set_hf_attenuation _ _ _) as [[ret this'] w']. cbn.
    destruct H as [[_ ->]|(c & _ & _ & -> & _)]; trivial.
    apply set_hf_attenuation_same.
  - pose proof (set_hf_vga_gain_stores this (hf_vga_gain this) w) as H.
    destruct (sddc_set_hf_vga_gain _ _ _) as [[ret this'] w']. cbn.
    destruct H as [[_ ->]|(c & _ & _ & -> & _)]; trivial.
    apply set_hf_vga_gain_same.
Qed.

Lemma sddc_set_rf_mode_handle this mode w :
  let '(ret, this', w') := sddc_set_rf_mode this mode w in
  (ret = 0 \/ ret = -1) /\
  (mode = HF_MODE ->
   this' = set_rf_mode HF_MODE this /\
   exists cs,
     trace w' =
       trace w ++
       usb_device_control (usb_device this) R82XXSTDBY 0 0 no_data :: cs) /\
  (mode = VHF_MODE -> has_vhf_tuner this <> 0 ->
   this' = set_rf_mode VHF_MODE this /\
   exists cs,
     trace w' =
       trace w ++
       usb_device_gpio_set (usb_device this) 0
         (Z.lor GPIO_ATT_SEL0 GPIO_ATT_SEL1) :: cs) /\
  (mode = NO_RF_MODE -> ret = -1 /\ this' = this /\ trace w' = trace w).
Proof.
  destruct mode; unfold sddc_set_rf_mode.
  - run. repeat split; auto; discriminate.
  - run. cbn [set_rf_mode usb_device].
    set (this1 := set_rf_mode HF_MODE this).
    set (w1 := mk_world _ _).
    destruct (_ <? 0); cbn.
    { repeat split; auto; try discriminate. exists []. reflexivity. }
    pose proof (reapply_keeps_handle this1 w1) as [Ha _].
    pose proof (set_hf_attenuation_stores this1 (hf_attenuation this1) w1)
      as Htr.
    change (hf_attenuation this) with (hf_attenuation this1).
    destruct (sddc_set_hf_attenuation this1 (hf_attenuation this1) w1)
      as [[ret2 this2] w2].
    cbn in Ha. subst this2.
    assert (Hw2 : exists cs, trace w2 = trace w1 ++ cs).
    { destruct Htr as [[-> _]|(c & -> & _)];
        [exists []; now rewrite app_nil_r|eexists; reflexivity]. }
    destruct Hw2 as (cs2 & Hw2).
    destruct (ret2 <? 0); cbn.
    { repeat split; auto; try discriminate.
      exists cs2. rewrite Hw2. subst w1. cbn. now rewrite <- app_assoc. }
    destruct (_ >? 0); cbn.
    2:{ repeat split; auto; try discriminate.
        exists cs2. rewrite Hw2. subst w1. cbn. now rewrite <- app_assoc. }
    change (hf_vga_gain this) with (hf_vga_gain this1).
    pose proof (reapply_keeps_handle this1 w2) as [_ Hg].
    pose proof (set_hf_vga_gain_stores this1 (hf_vga_gain this1) w2) as Htr3.
    destruct (sddc_set_hf_vga_gain this1 (hf_vga_gain this1) w2)
      as [[ret3 this3] w3].
    cbn in Hg. subst this3.
    assert (Hw3 : exists cs, trace w3 = trace w2 ++ cs).
    { destruct Htr3 as [[-> _]|(c & -> & _)];
        [exists []; now rewrite app_nil_r|eexists; reflexivity]. }
    destruct Hw3 as (cs3 & Hw3).
    destruct (ret3 <? 0); cbn;
      (repeat split; auto; try discriminate;
       exists (cs2 ++ cs3); rewrite Hw3, Hw2; subst w1; cbn;
       now rewrite <- !app_assoc).
  - destruct (Z.eqb_spec (has_vhf_tuner this) 0) as [E|N].
    { run. repeat split; auto; try discriminate; contradiction. }
    unfold sddc_set_vhf_gpios. run.
    destruct (_ <? 0); cbn.
    { repeat split; auto; try discriminate. exists []. reflexivity. }
    destruct (_ <? 0); cbn;
      (repeat split; auto; try discriminate;
       eexists; rewrite <- app_assoc; reflexivity).
Qed.

(** X7. [sddc_set_rf_mode] stores the new mode before it talks to the
    hardware and changes nothing else: for [HF_MODE], and for [VHF_MODE] on
    a handle with a tuner, the handle returned is the old one with
    [rf_mode] replaced, whether the call returns 0 or [-1], and at least one
    call was made, the first being the tuner standby (HF) or the attenuator
    select bits cleared (VHF).  For [NO_RF_MODE] nothing changes and no call
    is made. *)
Theorem set_rf_mode_commits_first this mode w :
  let '(ret, this', w') := sddc_set_rf_mode this mode w in
  (ret = 0 \/ ret = -1) /\
  (mode = HF_MODE ->
   this' = set_rf_mode HF_MODE this /\
   exists cs,
     trace w' =
       trace w ++
       usb_device_control (usb_device this) R82XXSTDBY 0 0 no_data :: cs) /\
  (mode = VHF_MODE -> has_vhf_tuner this <> 0 ->
   this' = set_rf_mode VHF_MODE this /\
   exists cs,
     trace w' =
       trace w ++
       usb_device_gpio_set (usb_device this) 0
         (Z.lor GPIO_ATT_SEL0 GPIO_ATT_SEL1) :: cs) /\
  (mode = NO_RF_MODE -> ret = -1 /\ this' = this /\ trace w' = trace w).
Proof. exact (sddc_set_rf_mode_handle this mode w). Qed.

Lemma set_rf_mode_vhf_without_tuner_handle this w :
  has_vhf_tuner this = 0 ->
  snd (fst (sddc_set_rf_mode this VHF_MODE w)) = this.
Proof. intros H. unfold sddc_set_rf_mode. rewrite H. run. reflexivity. Qed.

(** ** What no operation changes *)

Ltac split_conj :=
  lazymatch goal with
  | |- _ /\ _ => split; [|split_conj]
  | _ => idtac
  end.

Lemma same_device_refl this : same_device this this.
Proof. unfold same_device. tauto. Qed.

Lemma same_device_set this :
  (forall v, same_device this (set_status v this)) /\
  (forall v, same_device this (set_rf_mode v this)) /\
  (forall v, same_device this (set_streaming v this)) /\
  (forall v, same_device this (set_hf_attenuation v this)) /\
  (forall v, same_device this (set_hf_vga_gain v this)) /\
  (forall v, same_device this (set_sample_rate v this)) /\
  (forall v, same_device this (set_tuner_frequency v this)) /\
  (forall v, same_device this (set_freq_corr_ppm v this)).
Proof. unfold same_device. cbn. tauto. Qed.

(** X8. No operation on an open handle touches the identification
    (model, firmware), the transport, the capabilities (clock source, VHF
    tuner, attenuator and VGA levels, frequency range) or the fields
    [tuner_clock] and [tuner_attenuation]: they stay what [sddc_open] made
    them, whatever the transport returns. *)
Theorem operations_keep_device this w :
  (forall mode,
     same_device this (snd (fst (sddc_set_rf_mode this mode w)))) /\
  (forall attenuation,
     same_device this
       (snd (fst (sddc_set_hf_attenuation this attenuation w)))) /\
  (forall idx,
     same_device this (snd (fst (sddc_set_hf_vga_gain this idx w)))) /\
  (forall frequency,
     same_device this
       (snd (fst (sddc_set_tuner_frequency this frequency w)))) /\
  (forall attenuation,
     same_device this
       (snd (fst (sddc_set_tuner_rf_attenuation this attenuation w)))) /\
  (forall attenuation,
     same_device this
       (snd (fst (sddc_set_tuner_if_attenuation this attenuation w)))) /\
  (forall sample_rate,
     same_device this (snd (sddc_set_sample_rate this sample_rate))) /\
  (forall frame_size num_frames callback callback_context,
     same_device this
       (snd (fst (sddc_set_async_params this frame_size num_frames callback
                    callback_context w)))) /\
  same_device this (snd (fst (sddc_start_streaming this w))) /\
  same_device this (snd (fst (sddc_stop_streaming this w))) /\
  (forall correction,
     same_device this
       (snd (fst (sddc_set_frequency_correction this correction w)))).
Proof.
  pose proof (same_device_refl this) as Hrefl.
  destruct (same_device_set this)
    as (Hst & Hrf & Hsm & Hat & Hvg & Hsr & Htf & Hfc).
  split_conj.
  - intros mode. pose proof (sddc_set_rf_mode_handle this mode w) as H.
    pose proof (set_rf_mode_vhf_without_tuner_handle this w) as Hv.
    destruct mode;
      destruct (sddc_set_rf_mode this _ w) as [[ret this'] w'];
      cbn in Hv |- *; destruct H as (_ & Hhf & Hvhf & Hno).
    + destruct Hno as (_ & -> & _); auto.
    + destruct Hhf as (-> & _); auto.
    + destruct (Z.eq_dec (has_vhf_tuner this) 0) as [E|N].
      * rewrite (Hv E). auto.
      * destruct Hvhf as (-> & _); auto.
  - intros a. pose proof (set_hf_attenuation_stores this a w) as H.
    destruct (sddc_set_hf_attenuation this a w) as [[ret this'] w']. cbn.
    destruct H as [[_ ->]|(c & _ & _ & -> & _)]; auto.
  - intros i. pose proof (set_hf_vga_gain_stores this i w) as H.
    destruct (sddc_set_hf_vga_gain this i w) as [[ret this'] w']. cbn.
    destruct H as [[_ ->]|(c & _ & _ & -> & _)]; auto.
  - intros f. unfold sddc_set_tuner_frequency. run.
    destruct (_ <? 0); cbn; auto.
  - intros a. unfold sddc_set_tuner_rf_attenuation. run.
    destruct (_ <? 0); cbn; auto.
  - intros a. unfold sddc_set_tuner_if_attenuation. run.
    destruct (_ <? 0); cbn; auto.
  - intros r. cbn. auto.
  - intros fs nf cb ctx. unfold sddc_set_async_params.
    destruct (negb _); run; [auto|]. destruct (_ =? 0); cbn; auto.
  - destruct (SDDCStatus_eqb (status this) SDDC_STATUS_READY) eqn:E.
    + apply SDDCStatus_eqb_eq in E.
      pose proof (start_follows_plan this w E) as H.
      destruct (sddc_start_streaming this w) as [[ret this'] w']. cbn.
      destruct H as [(_ & -> & _)|(_ & -> & _)]; auto.
    + unfold sddc_start_streaming. rewrite E. run. auto.
  - destruct (SDDCStatus_eqb (status this) SDDC_STATUS_STREAMING) eqn:E.
    + apply SDDCStatus_eqb_eq in E.
      pose proof (stop_follows_plan this w E) as H.
      destruct (sddc_stop_streaming this w) as [[ret this'] w']. cbn.
      destruct H as [(_ & -> & _)|(_ & -> & _)]; auto.
    + unfold sddc_stop_streaming. rewrite E. run. auto.
  - intros c. unfold sddc_set_frequency_correction.
    destruct (SDDCStatus_eqb _ _); run; auto.
Qed.

(** ** Setting a value twice *)

(** The call [sddc_set_hf_attenuation] makes depends on the handle only
    through its transport and attenuator class. *)
Lemma set_hf_attenuation_again this attenuation w :
  let '(ret1, this1, w1) := sddc_set_hf_attenuation this attenuation w in
  forall w2,
    let '(ret2, this2, w2') :=
      sddc_set_hf_attenuation this1 attenuation w2 in
    this2 = this1 /\
    exists cs, trace w1 = trace w ++ cs /\ trace w2' = trace w2 ++ cs.
Proof.
  unfold sddc_set_hf_attenuation.
  destruct (hf_attenuator_levels this =? 0) eqn:E0.
  { run. intros w2. rewrite E0. run. split; trivial.
    exists []. now rewrite !app_nil_r. }
  destruct (hf_attenuator_levels this =? 3) eqn:E3.
  { destruct (match to_int attenuation with 0 => _ | _ => _ end) eqn:Em;
      run; intros w2; cbn [hf_attenuator_levels set_hf_attenuation];
      rewrite E0, E3; run.
    - split; trivial. eexists. split; reflexivity.
    - split; trivial. exists []. now rewrite !app_nil_r. }
  destruct (hf_attenuator_levels this =? 32) eqn:E32.
  { destruct (_ || _) eqn:Ev; run; intros w2;
      cbn [hf_attenuator_levels set_hf_attenuation];
      rewrite E0, E3, E32, ?Ev; run.
    - split; trivial. exists []. now rewrite !app_nil_r.
    - split; trivial. eexists. split; reflexivity. }
  destruct (hf_attenuator_levels this =? 64) eqn:E64.
  { destruct (_ || _) eqn:Ev; run; intros w2;
      cbn [hf_attenuator_levels set_hf_attenuation];
      rewrite E0, E3, E32, E64, ?Ev; run.
    - split; trivial. exists []. now rewrite !app_nil_r.
    - split; trivial. eexists. split; reflexivity. }
  run. intros w2. rewrite E0, E3, E32, E64. run. split; trivial.
  exists []. now rewrite !app_nil_r.
Qed.

Lemma set_hf_vga_gain_again this idx w :
  let '(ret1, this1, w1) := sddc_set_hf_vga_gain this idx w in
  forall w2,
    let '(ret2, this2, w2') := sddc_set_hf_vga_gain this1 idx w2 in
    this2 = this1 /\
    exists cs, trace w1 = trace w ++ cs /\ trace w2' = trace w2 ++ cs.
Proof.
  unfold sddc_set_hf_vga_gain.
  destruct (hf_vga_levels this =? 0) eqn:E0.
  { run. intros w2. rewrite E0. run. split; trivial.
    exists []. now rewrite !app_nil_r. }
  destruct (hf_vga_levels this =? 127) eqn:E127.
  { destruct (_ || _) eqn:Ev; run; intros w2;
      cbn [hf_vga_levels set_hf_vga_gain];
      rewrite E0, E127, ?Ev; run.
    - split; trivial. exists []. now rewrite !app_nil_r.
    - split; trivial. eexists. split; reflexivity. }
  run. intros w2. rewrite E0, E127. run. split; trivial.
  exists []. now rewrite !app_nil_r.
Qed.

(** X9. Setting the same HF attenuation, or the same VGA gain index, a
    second time makes the same call as the first time (or none, as the first
    time) and leaves the handle as the first call left it. *)
Theorem hf_setters_idempotent this w :
  (forall attenuation,
     let '(ret1, this1, w1) := sddc_set_hf_attenuation this attenuation w in
     let '(ret2, this2, w2) :=
       sddc_set_hf_attenuation this1 attenuation w1 in
     this2 = this1 /\
     sddc_get_hf_attenuation this2 = sddc_get_hf_attenuation this1 /\
     exists cs, trace w1 = trace w ++ cs /\ trace w2 = trace w1 ++ cs) /\
  (forall idx,
     let '(ret1, this1, w1) := sddc_set_hf_vga_gain this idx w in
     let '(ret2, this2, w2) := sddc_set_hf_vga_gain this1 idx w1 in
     this2 = this1 /\
     exists cs, trace w1 = trace w ++ cs /\ trace w2 = trace w1 ++ cs).
Proof.
  split.
  - intros a. pose proof (set_hf_attenuation_again this a w) as H.
    destruct (sddc_set_hf_attenuation this a w) as [[ret1 this1] w1].
    specialize (H w1).
    destruct (sddc_set_hf_attenuation this1 a w1) as [[ret2 this2] w2].
    destruct H as (-> & H). auto.
  - intros i. pose proof (set_hf_vga_gain_again this i w) as H.
    destruct (sddc_set_hf_vga_gain this i w) as [[ret1 this1] w1].
    specialize (H w1).
    destruct (sddc_set_hf_vga_gain this1 i w1) as [[ret2 this2] w2].
    exact H.
Qed.

(** ** The words sent with the ADC and tuner commands *)

(** A finite correction of a zero clock is a zero, and adds nothing. *)
Lemma zero_clock_word (q : double) :
  finite q = true -> (0 + q * 0)%float = 0%float.
Proof.
  unfold finite. intros H. apply Prim2SF_inj.
  rewrite add_spec, mul_spec.
  change (Prim2SF 0) with (S754_zero false).
  destruct (Prim2SF q) as [s|s| |s m e]; try discriminate;
    destruct s; reflexivity.
Qed.

(** A zero correction leaves a finite rate as it is. *)
Lemma zero_correction (x : double) :
  finite x = true -> (x + 0 * x)%float = x.
Proof.
  unfold finite. intros H. apply Prim2SF_inj.
  rewrite add_spec, mul_spec.
  change (Prim2SF 0) with (S754_zero false).
  destruct (Prim2SF x) as [s|s| |s m e]; try discriminate;
    destruct s; reflexivity.
Qed.

(** X10. On a handle whose [tuner_clock] is 0 (as [sddc_open] leaves it,
    and nothing changes it) [sddc_set_rf_mode(VHF_MODE)] clears the
    attenuator select bits and then initialises the tuner with the reference
    word 0, for every frequency correction whose scaled value
    [1e-6 * freq_corr_ppm] is finite. *)
Theorem set_rf_mode_vhf_reference_word this w :
  has_vhf_tuner this <> 0 -> tuner_clock this = 0%float ->
  finite (1e-6 * freq_corr_ppm this) = true ->
  let select :=
    usb_device_gpio_set (usb_device this) 0
      (Z.lor GPIO_ATT_SEL0 GPIO_ATT_SEL1) in
  let init :=
    usb_device_control (usb_device this) R82XXINIT 0 0 (bytes_of_uint32 0) in
  let '(ret, this', w') := sddc_set_rf_mode this VHF_MODE w in
  (returns env (trace w) select < 0 ->
   ret = -1 /\ trace w' = trace w ++ [select]) /\
  (0 <= returns env (trace w) select ->
   trace w' = trace w ++ [select; init] /\
   (returns env (trace w ++ [select]) init < 0 -> ret = -1) /\
   (0 <= returns env (trace w ++ [select]) init -> ret = 0)).
Proof.
  intros Ht Hc Hq select init. subst select init.
  unfold sddc_set_rf_mode, sddc_set_vhf_gpios.
  apply Z.eqb_neq in Ht. rewrite Ht. run.
  cbn [set_rf_mode usb_device tuner_clock freq_corr_ppm].
  rewrite Hc, (zero_clock_word _ Hq).
  change (to_uint32 0) with 0.
  match goal with
  | |- context [returns env (trace w) ?c <? 0] =>
      destruct (Z.ltb_spec (returns env (trace w) c) 0) as [E1|E1]
  end; cbn.
  - split; [auto|lia].
  - match goal with
    | |- context [returns env ?h ?c <? 0] =>
        destruct (Z.ltb_spec (returns env h c) 0) as [E2|E2]
    end; cbn; rewrite <- app_assoc; cbn;
      (split; [lia|]; intros _; repeat split; trivial; lia).
Qed.

(** X11. With the frequency correction at 0 and a finite sample rate, the
    calls of [sddc_start_streaming] carry the uncorrected values: the ADC is
    started with the sample rate converted to [uint32_t], and in VHF mode
    the tuner is initialised with 32000000. *)
Theorem start_streaming_uncorrected this w :
  status this = SDDC_STATUS_READY ->
  freq_corr_ppm this = 0%float -> finite (sample_rate this) = true ->
  let plan :=
    [usb_device_control (usb_device this) STARTADC 0 0
       (bytes_of_uint32 (to_uint32 (sample_rate this)))]
    ++ (if RFMode_eqb (rf_mode this) VHF_MODE then
          [usb_device_control (usb_device this) R82XXINIT 0 0
             (bytes_of_uint32 32000000)]
        else [])
    ++ (if negb (streaming this =? 0) then
          [streaming_set_sample_rate (streaming this)
             (to_uint32 (sample_rate this));
           streaming_start (streaming this)]
        else [])
    ++ [usb_device_control (usb_device this) STARTFX3 0 0 no_data] in
  fail_fast plan this (set_status SDDC_STATUS_STREAMING this) w
    (sddc_start_streaming this w).
Proof.
  intros Hs Hc Hf plan.
  pose proof (start_follows_plan this w Hs) as H.
  replace (start_plan this) with plan in H; [exact H|].
  subst plan. unfold start_plan. rewrite Hc.
  change (1e-6 * 0)%float with 0%float.
  rewrite (zero_correction _ Hf).
  reflexivity.
Qed.

(** ** LEDs *)

Lemma byte_cases (P : Z -> bool) :
  forallb P (map Z.of_nat (seq 0 256)) = true ->
  forall p, 0 <= p < 256 -> P p = true.
Proof.
  intros H p Hp. rewrite forallb_forall in H. apply H.
  apply in_map_iff. exists (Z.to_nat p). split; [lia|].
  apply in_seq. lia.
Qed.

Lemma led_pattern_facts p :
  0 <= p < 256 ->
  (Z.land p (Z.lnot (Z.lor (Z.lor LED_YELLOW LED_RED) LED_BLUE)) =? 0)
    = (p <=? 7) /\
  Z.shiftl (Cast.to_uint16 p) GPIO_LED_SHIFT = 1024 * p /\
  (p <= 7 ->
   Z.land (1024 * p)
     (Z.lor (Z.lor GPIO_LED_YELLOW GPIO_LED_RED) GPIO_LED_BLUE) = 1024 * p).
Proof.
  intros Hp.
  pose proof (byte_cases
    (fun p =>
       Bool.eqb
         (Z.land p (Z.lnot (Z.lor (Z.lor LED_YELLOW LED_RED) LED_BLUE))
            =? 0) (p <=? 7)
       && (Z.shiftl (Cast.to_uint16 p) GPIO_LED_SHIFT =? 1024 * p)
       && ((7 <? p)
           || (Z.land (1024 * p)
                 (Z.lor (Z.lor GPIO_LED_YELLOW GPIO_LED_RED) GPIO_LED_BLUE)
               =? 1024 * p)))
    ltac:(vm_compute; reflexivity) p Hp) as H.
  cbv beta in H. apply andb_prop in H as [H H3]. apply andb_prop in H as [H1 H2].
  apply Bool.eqb_prop in H1. apply Z.eqb_eq in H2.
  repeat split; trivial.
  intros Hle. apply orb_prop in H3 as [H3|H3].
  - apply Z.ltb_lt in H3. lia.
  - now apply Z.eqb_eq in H3.
Qed.

(** X12. [sddc_led_on] accepts exactly the patterns made of the three
    colour bits (0 to 7): it then makes one call that turns on the GPIO bits
    [led_pattern << 10], all of them LED bits (yellow, red and blue map to
    their own GPIO bits), and returns what the call returned.  Any pattern
    with another bit set returns [-1] without a call. *)
Theorem led_on_only_led_bits this led_pattern w :
  0 <= led_pattern < 256 ->
  let leds := Z.lor (Z.lor GPIO_LED_YELLOW GPIO_LED_RED) GPIO_LED_BLUE in
  let bits := 1024 * led_pattern in
  let '(ret, w') := sddc_led_on this led_pattern w in
  (led_pattern <= 7 ->
   trace w' = trace w ++ [usb_device_gpio_on (usb_device this) bits] /\
   ret = returns env (trace w) (usb_device_gpio_on (usb_device this) bits) /\
   Z.land bits leds = bits) /\
  (7 < led_pattern -> ret = -1 /\ trace w' = trace w) /\
  (Z.shiftl LED_YELLOW GPIO_LED_SHIFT = GPIO_LED_YELLOW /\
   Z.shiftl LED_RED GPIO_LED_SHIFT = GPIO_LED_RED /\
   Z.shiftl LED_BLUE GPIO_LED_SHIFT = GPIO_LED_BLUE).
Proof.
  intros Hp leds bits. subst leds bits.
  destruct (led_pattern_facts led_pattern Hp) as (Hv & Hs & Hl).
  unfold sddc_led_on. rewrite Hv, Hs.
  destruct (Z.leb_spec led_pattern 7); run.
  - split; [|split; [lia|repeat split]]. intros _. repeat split. now apply Hl.
  - split; [lia|]. split; [auto|repeat split].
Qed.

(** ** The VGA gain code *)

Lemma gain_code_facts idx :
  0 <= idx <= 127 ->
  (if idx >? AD8370_GAIN_SWEET_POINT then
     Cast.to_uint8
       (Z.lor AD8370_HIGH_MODE (idx - AD8370_GAIN_SWEET_POINT + 3))
   else Cast.to_uint8 (Z.lor AD8370_LOW_MODE (idx + 1)))
  = ad8370_gain_code idx.
Proof.
  intros Hi.
  pose proof (byte_cases
    (fun idx =>
       (127 <? idx)
       || ((if idx >? AD8370_GAIN_SWEET_POINT then
              Cast.to_uint8
                (Z.lor AD8370_HIGH_MODE (idx - AD8370_GAIN_SWEET_POINT + 3))
            else Cast.to_uint8 (Z.lor AD8370_LOW_MODE (idx + 1)))
           =? ad8370_gain_code idx))
    ltac:(vm_compute; reflexivity) idx ltac:(lia)) as H.
  cbv beta in H. apply orb_prop in H as [H|H].
  - apply Z.ltb_lt in H. lia.
  - now apply Z.eqb_eq in H.
Qed.

Lemma gain_code_top_bit idx :
  0 <= idx <= 127 -> Z.testbit (ad8370_gain_code idx) 7 = (18 <? idx).
Proof.
  intros Hi.
  pose proof (byte_cases
    (fun i => (127 <? i)
              || Bool.eqb (Z.testbit (ad8370_gain_code i) 7) (18 <? i))
    ltac:(vm_compute; reflexivity) idx ltac:(lia)) as H.
  cbv beta in H. apply orb_prop in H as [H|H].
  - apply Z.ltb_lt in H. lia.
  - now apply Bool.eqb_prop in H.
Qed.

(** X13. On a handle with the 127-level VGA, [sddc_set_hf_vga_gain]
    accepts the indices 0 to 127, stores the index and writes to
    [FW_REG_AD8370_VGA] the code [idx + 1] for an index up to 18 and
    [0x80 + idx - 15] above it; the code fits a byte, its top bit tells the
    two modes apart, and two different indices never get the same code.
    Every other index returns [-1] without a call. *)
Theorem set_hf_vga_gain_encoding this idx w :
  hf_vga_levels this = 127 ->
  let write :=
    usb_device_set_fw_register (usb_device this) FW_REG_AD8370_VGA
      (ad8370_gain_code idx) in
  let '(ret, this', w') := sddc_set_hf_vga_gain this idx w in
  (0 <= idx <= 127 ->
   this' = set_hf_vga_gain idx this /\
   trace w' = trace w ++ [write] /\
   ret = returns env (trace w) write /\
   0 < ad8370_gain_code idx < 256 /\
   (Z.testbit (ad8370_gain_code idx) 7 = (18 <? idx))) /\
  (idx < 0 \/ 127 < idx -> ret = -1 /\ this' = this /\ trace w' = trace w) /\
  (forall idx2,
     0 <= idx <= 127 -> 0 <= idx2 <= 127 ->
     ad8370_gain_code idx = ad8370_gain_code idx2 -> idx = idx2).
Proof.
  intros H write. subst write. unfold sddc_set_hf_vga_gain. rewrite H.
  change (127 =? 0) with false. change (127 =? 127) with true. cbv iota.
  destruct (Z.ltb_spec idx 0) as [Hlo|Hlo];
    [|destruct (Z.gtb_spec idx 127) as [Hhi|Hhi]]; cbn [orb];
    rewrite ?(gain_code_facts idx ltac:(lia)); run.
  - split; [lia|]. split; [auto|]. intros; lia.
  - split; [lia|]. split; [auto|]. intros; lia.
  - split; [|split; [lia|]].
    + intros Hr. split; [reflexivity|]. split; [reflexivity|].
      split; [reflexivity|]. split.
      * change (0 < ad8370_gain_code idx < 256).
        unfold ad8370_gain_code. destruct (Z.leb_spec idx 18); lia.
      * exact (gain_code_top_bit idx Hr).
    + intros idx2 _ H2. unfold ad8370_gain_code.
      destruct (Z.leb_spec idx 18); destruct (Z.leb_spec idx2 18); lia.
Qed.

(** ** The IF attenuation of the tuner *)

(** X14. For every requested value [sddc_set_tuner_if_attenuation] writes
    to the register [FW_REG_R82XX_VGA] an index of the 16-entry table, the
    lowest one at which [fabs(attenuation - table[i])] is least; when the
    write succeeds it returns 0 and reports [table[idx]], otherwise it
    returns [-1]; the handle is not changed. *)
Theorem set_tuner_if_attenuation_nearest this attenuation w :
  let table := tuner_if_attenuations_table in
  let d := distance table attenuation in
  let idx := attenuation_index table attenuation in
  let write :=
    usb_device_set_fw_register (usb_device this) FW_REG_R82XX_VGA idx in
  fst (sddc_get_tuner_if_attenuations this) = 16 /\
  0 <= idx < 16 /\
  (forall j, 0 <= j < 16 -> (d j <? d idx)%float = false) /\
  (forall j, 0 <= j < idx -> (d j <=? d idx)%float = false) /\
  (let '(ret, this', w') :=
     sddc_set_tuner_if_attenuation this attenuation w in
   this' = this /\
   trace w' = trace w ++ [write] /\
   (0 <= returns env (trace w) write ->
    ret = 0 /\
    stderr w' =
      stderr w ++
      [mk_message "INFO - IF tuner attenuation set to %.1f\n"
         [arg_double (nth (Z.to_nat idx) table 0%float)]]) /\
   (returns env (trace w) write < 0 -> ret = -1)).
Proof.
  intros table d idx write.
  destruct (attenuation_index_first_nearest table attenuation)
    as (Hidx & Hmin & Hfirst).
  { cbn. lia. }
  change (Z.of_nat (List.length table)) with 16 in *.
  repeat split; trivial; try apply Hidx.
  unfold sddc_set_tuner_if_attenuation. run.
  fold table. fold idx. fold write.
  destruct (returns env (trace w) write <? 0) eqn:Hret; cbn.
  - apply Z.ltb_lt in Hret. repeat split; trivial; lia.
  - apply Z.ltb_ge in Hret. repeat split; trivial; lia.
Qed.

Lemma table_index_cases (n : nat) (P : Z -> bool) :
  forallb P (map Z.of_nat (seq 0 n)) = true ->
  forall i, 0 <= i < Z.of_nat n -> P i = true.
Proof.
  intros H i Hi. rewrite forallb_forall in H. apply H.
  apply in_map_iff. exists (Z.to_nat i). split; [lia|].
  apply in_seq. lia.
Qed.

(** X15. Asking for a value of the table selects that very entry: for
    every index [i], the RF setter given [table[i]] writes [i] to
    [FW_REG_R82XX_ATTENUATOR], and the IF setter given its [table[i]] writes
    [i] to [FW_REG_R82XX_VGA]. *)
Theorem table_values_select_their_entry this w i :
  (0 <= i < 29 ->
   let '(_, _, w') :=
     sddc_set_tuner_rf_attenuation this
       (nth (Z.to_nat i) tuner_rf_attenuations_table 0%float) w in
   trace w' =
     trace w ++
     [usb_device_set_fw_register (usb_device this) FW_REG_R82XX_ATTENUATOR
        i]) /\
  (0 <= i < 16 ->
   let '(_, _, w') :=
     sddc_set_tuner_if_attenuation this
       (nth (Z.to_nat i) tuner_if_attenuations_table 0%float) w in
   trace w' =
     trace w ++
     [usb_device_set_fw_register (usb_device this) FW_REG_R82XX_VGA i]).
Proof.
  split; intros Hi.
  - pose proof (set_tuner_attenuation_stores_nothing this
      (nth (Z.to_nat i) tuner_rf_attenuations_table 0%float) w) as [H _].
    destruct (sddc_set_tuner_rf_attenuation _ _ _) as [[ret this'] w'].
    destruct H as (_ & ->).
    pose proof (table_index_cases 29
      (fun i => attenuation_index tuner_rf_attenuations_table
                  (nth (Z.to_nat i) tuner_rf_attenuations_table 0%float)
                =? i)
      ltac:(vm_compute; reflexivity) i Hi) as Hc.
    cbv beta in Hc. apply Z.eqb_eq in Hc. now rewrite Hc.
  - pose proof (set_tuner_attenuation_stores_nothing this
      (nth (Z.to_nat i) tuner_if_attenuations_table 0%float) w) as [_ H].
    destruct (sddc_set_tuner_if_attenuation _ _ _) as [[ret this'] w'].
    destruct H as (_ & ->).
    pose proof (table_index_cases 16
      (fun i => attenuation_index tuner_if_attenuations_table
                  (nth (Z.to_nat i) tuner_if_attenuations_table 0%float)
                =? i)
      ltac:(vm_compute; reflexivity) i Hi) as Hc.
    cbv beta in Hc. apply Z.eqb_eq in Hc. now rewrite Hc.
Qed.

(** ** Opening and closing *)

(** X16. [sddc_open] returns a handle exactly when the transport opened
    the device and the identification transfer succeeded, after those two
    calls.  When the device cannot be opened nothing else is called; when
    the identification fails the device just opened is closed again before
    [NULL] is returned.  [sddc_close] closes the device of the handle and
    calls nothing else. *)
Theorem open_and_close_the_transport index imagefile w :
  let opening := usb_device_open index imagefile 0 in
  let dev := returns env (trace w) opening in
  let identify := usb_device_control dev TESTFX3 0 0 (read_into 4) in
  let '(r, w') := sddc_open index imagefile w in
  (dev = 0 -> r = None /\ trace w' = trace w ++ [opening]) /\
  (dev <> 0 -> returns env (trace w ++ [opening]) identify < 0 ->
   r = None /\
   trace w' = trace w ++ [opening; identify; usb_device_close dev]) /\
  (dev <> 0 -> 0 <= returns env (trace w ++ [opening]) identify ->
   trace w' = trace w ++ [opening; identify] /\
   exists this,
     r = Some this /\ usb_device this = dev /\
     forall w2,
       trace (snd (sddc_close this w2)) =
       trace w2 ++ [usb_device_close dev]).
Proof.
  intros opening dev identify. subst identify dev opening.
  unfold sddc_open. run.
  destruct (Z.eqb_spec (returns env (trace w)
                          (usb_device_open index imagefile 0)) 0)
    as [E|N]; cbn.
  - split; [auto|]. split; intros; contradiction.
  - match goal with
    | |- context [returns env ?h ?c <? 0] =>
        destruct (Z.ltb_spec (returns env h c) 0) as [E2|E2]
    end; cbn; rewrite <- ?app_assoc; cbn.
    + split; [intros; contradiction|]. split; [auto|]. intros; lia.
    + split; [intros; contradiction|]. split; [intros; lia|].
      intros _ _. split; [reflexivity|].
      eexists. split; [reflexivity|].
      split; [unfold sddc_new; destruct (model_switch _) as [[[[? ?] ?] ?] ?];
              reflexivity|].
      intros w2. unfold sddc_close. run.
      unfold sddc_new; destruct (model_switch _) as [[[[? ?] ?] ?] ?].
      reflexivity.
Qed.

Lemma nth_to_uint8 n (l : list Z) :
  nth n (map Cast.to_uint8 l) 0 = Cast.to_uint8 (nth n l 0).
Proof. exact (map_nth Cast.to_uint8 l 0 n). Qed.

Lemma big_endian_word a b :
  0 <= a < 256 -> 0 <= b < 256 ->
  Cast.to_uint16 (Z.lor (Z.shiftl a 8) b) = 256 * a + b.
Proof.
  intros Ha Hb.
  pose proof (byte_cases
    (fun a =>
       forallb
         (fun b => Cast.to_uint16 (Z.lor (Z.shiftl a 8) b) =? 256 * a + b)
         (map Z.of_nat (seq 0 256)))
    ltac:(vm_compute; reflexivity) a Ha) as H.
  cbv beta in H. apply (byte_cases _ H b) in Hb. now apply Z.eqb_eq in Hb.
Qed.

(** X17. The handle [sddc_open] returns carries what the device answered:
    the model is the first reply byte, the firmware version is the 16-bit
    big-endian number made of the second and third bytes, and the transport
    is the one that was opened. *)
Theorem open_reads_identification index imagefile w this w' :
  sddc_open index imagefile w = (Some this, w') ->
  let opening := usb_device_open index imagefile 0 in
  let dev := returns env (trace w) opening in
  let reply :=
    stores env (trace w ++ [opening])
      (usb_device_control dev TESTFX3 0 0 (read_into 4)) in
  sddc_get_hw_model this = nth 0 reply 0 mod 256 /\
  sddc_get_firmware this =
    256 * (nth 1 reply 0 mod 256) + nth 2 reply 0 mod 256 /\
  0 <= sddc_get_firmware this < 65536 /\
  usb_device this = dev.
Proof.
  intros H opening dev reply. subst reply dev opening.
  unfold sddc_open in H. revert H. run.
  destruct (_ =? 0); [discriminate|].
  destruct (_ <? 0); [discriminate|].
  intros H. injection H as <- _.
  unfold sddc_get_hw_model, sddc_get_firmware, sddc_new.
  destruct (model_switch _) as [[[[? ?] ?] ?] ?].
  cbn [model firmware usb_device].
  rewrite !nth_to_uint8. unfold Cast.to_uint8. change (2 ^ 8) with 256.
  set (b1 := nth 1 _ 0 mod 256).
  set (b2 := nth 2 _ 0 mod 256).
  assert (0 <= b1 < 256) by (subst b1; apply Z.mod_pos_bound; lia).
  assert (0 <= b2 < 256) by (subst b2; apply Z.mod_pos_bound; lia).
  rewrite !big_endian_word by assumption.
  repeat split; try reflexivity; lia.
Qed.

(** X18. On every handle [sddc_open] returns, the attenuator has 0, 3, 32
    or 64 levels and the VGA 0 or 127, a VGA comes only with the 64-level
    attenuator, and a clock source exactly with a VHF tuner.  So the
    branches marked "should never get here" of [sddc_set_hf_attenuation]
    and [sddc_set_hf_vga_gain] are not reached: the only error either can
    print is the one for an invalid value. *)
Theorem open_capabilities index imagefile w this w' :
  sddc_open index imagefile w = (Some this, w') ->
  In (hf_attenuator_levels this) [0; 3; 32; 64] /\
  In (hf_vga_levels this) [0; 127] /\
  (hf_vga_levels this = 127 -> hf_attenuator_levels this = 64) /\
  In (has_vhf_tuner this) [0; 1] /\
  has_clock_source this = has_vhf_tuner this /\
  (forall attenuation w2,
     let '(_, _, w2') := sddc_set_hf_attenuation this attenuation w2 in
     stderr w2' = stderr w2 \/
     stderr w2' =
       stderr w2 ++
       [mk_message "ERROR - invalid HF attenuation: %lf\n"
          [arg_double attenuation]]) /\
  (forall idx w2,
     let '(_, _, w2') := sddc_set_hf_vga_gain this idx w2 in
     stderr w2' = stderr w2 \/
     stderr w2' =
       stderr w2 ++
       [mk_message "ERROR - invalid HF vga gain idx: %d\n" [arg_int idx]]).
Proof.
  intros H. apply sddc_open_some in H as (dev & data & _ & ->).
  unfold sddc_new, model_switch.
  destruct (_ || _); [|destruct (_ =? HW_RX888R2);
                        [|destruct (_ =? HW_HF103)]];
    cbn [hf_attenuator_levels hf_vga_levels has_vhf_tuner has_clock_source];
    (split; [cbn; tauto|]); (split; [cbn; tauto|]);
    (split; [intros; try discriminate; reflexivity|]);
    (split; [cbn; tauto|]); (split; [reflexivity|]);
    (split; [intros a w2; unfold sddc_set_hf_attenuation
            |intros i w2; unfold sddc_set_hf_vga_gain]);
    cbn [hf_attenuator_levels hf_vga_levels Z.eqb Pos.eqb]; run; auto.
  - destruct (match to_int a with 0 => _ | _ => _ end); cbn; auto.
  - destruct (_ || _); cbn; auto.
  - destruct (_ || _); cbn; auto.
  - destruct (_ || _); cbn; auto.
Qed.

(** ** The 32-level attenuator *)

(** X19. On a handle with the 32-level attenuator,
    [sddc_set_hf_attenuation] accepts every value from 0 to 31, stores it
    as given and writes its conversion to [int] (the integral part) to
    [FW_REG_DAT31_ATT]; every value below 0 or above 31 returns [-1] without
    a call and leaves the handle as it was. *)
Theorem set_hf_attenuation_32_levels_range this attenuation w :
  hf_attenuator_levels this = 32 ->
  let write :=
    usb_device_set_fw_register (usb_device this) FW_REG_DAT31_ATT
      (Cast.to_uint16 (to_int attenuation)) in
  let '(ret, this', w') := sddc_set_hf_attenuation this attenuation w in
  ((0 <=? attenuation)%float = true /\ (attenuation <=? 31)%float = true ->
   this' = set_hf_attenuation attenuation this /\
   sddc_get_hf_attenuation this' = attenuation /\
   trace w' = trace w ++ [write] /\
   ret = returns env (trace w) write) /\
  ((attenuation <? 0)%float = true \/ (31 <? attenuation)%float = true ->
   ret = -1 /\ this' = this /\ trace w' = trace w) /\
  (forall z, Cast.trunc attenuation = Some z -> 0 <= z <= 31 ->
             Cast.to_uint16 (to_int attenuation) = z).
Proof.
  intros H write. subst write.
  assert (Hfit : forall z, Cast.trunc attenuation = Some z -> 0 <= z <= 31 ->
                           Cast.to_uint16 (to_int attenuation) = z).
  { intros z Hz Hr. unfold to_int.
    rewrite (of_double_fits Cast.c_int attenuation z Hz) by (cbn; lia).
    unfold Cast.to_uint16. apply Z.mod_small. lia. }
  unfold sddc_set_hf_attenuation. rewrite H.
  change (32 =? 0) with false. change (32 =? 3) with false.
  change (32 =? 32) with true. cbv iota.
  change (Cast.of_int (32 - 1)) with 31%float.
  destruct (attenuation <? 0.0)%float eqn:Hlo;
    [|destruct (31 <? attenuation)%float eqn:Hhi]; run;
    (split; [|split; [|exact Hfit]]).
  - intros [Hge _]. apply leb_not_gtb in Hge. congruence.
  - auto.
  - intros [_ Hle]. apply leb_not_gtb in Hle. congruence.
  - auto.
  - intros _. repeat split.
  - intros [?|?]; congruence.
Qed.

(** ** The stored settings stay valid *)

(** What [sddc_set_hf_attenuation] does, by the outcome of its validation:
    nothing, one checked call after storing the value, or a refusal. *)
Lemma set_hf_attenuation_by_validation this attenuation :
  if attenuation_accepted (hf_attenuator_levels this) attenuation then
    (forall w, sddc_set_hf_attenuation this attenuation w = (0, this, w)) \/
    (exists c,
       checked c = true /\
       forall w,
         sddc_set_hf_attenuation this attenuation w =
         (returns env (trace w) c, set_hf_attenuation attenuation this,
          mk_world (trace w ++ [c]) (stderr w)))
  else
    forall w,
      fst (sddc_set_hf_attenuation this attenuation w) = (-1, this) /\
      trace (snd (sddc_set_hf_attenuation this attenuation w)) = trace w.
Proof.
  unfold attenuation_accepted, sddc_set_hf_attenuation.
  destruct (hf_attenuator_levels this =? 0); [left; reflexivity|].
  destruct (hf_attenuator_levels this =? 3).
  { destruct (to_int attenuation) as [|p|p]; run;
      try (intros w; split; reflexivity);
      try (right; eexists; split; [|intros w; reflexivity]; reflexivity).
    do 5 (try destruct p as [p|p|]; run;
          try (intros w; split; reflexivity);
          try (right; eexists; split; [|intros w; reflexivity]; reflexivity)). }
  destruct (hf_attenuator_levels this =? 32).
  { destruct (_ || _); run; [intros w; split; reflexivity|].
    right; eexists; split; [|intros w; reflexivity]; reflexivity. }
  destruct (hf_attenuator_levels this =? 64).
  { destruct (_ || _); run; [intros w; split; reflexivity|].
    right; eexists; split; [|intros w; reflexivity]; reflexivity. }
  run. intros w; split; reflexivity.
Qed.

Lemma set_hf_vga_gain_by_validation this idx :
  if gain_accepted (hf_vga_levels this) idx then
    (forall w, sddc_set_hf_vga_gain this idx w = (0, this, w)) \/
    (exists c,
       checked c = true /\
       forall w,
         sddc_set_hf_vga_gain this idx w =
         (returns env (trace w) c, set_hf_vga_gain idx this,
          mk_world (trace w ++ [c]) (stderr w)))
  else
    forall w,
      fst (sddc_set_hf_vga_gain this idx w) = (-1, this) /\
      trace (snd (sddc_set_hf_vga_gain this idx w)) = trace w.
Proof.
  unfold gain_accepted, sddc_set_hf_vga_gain.
  destruct (hf_vga_levels this =? 0); [left; reflexivity|].
  destruct (hf_vga_levels this =? 127).
  { destruct (_ || _); run; [intros w; split; reflexivity|].
    right; eexists; split; [|intros w; reflexivity]; reflexivity. }
  run. intros w; split; reflexivity.
Qed.

Lemma settings_valid_set this :
  settings_valid this ->
  (forall v, settings_valid (set_status v this)) /\
  (forall v, settings_valid (set_rf_mode v this)) /\
  (forall v, settings_valid (set_streaming v this)) /\
  (forall v, settings_valid (set_sample_rate v this)) /\
  (forall v, settings_valid (set_tuner_frequency v this)) /\
  (forall v, settings_valid (set_freq_corr_ppm v this)).
Proof. unfold settings_valid. cbn. tauto. Qed.

Lemma settings_valid_new usb_device data :
  settings_valid (sddc_new usb_device data).
Proof.
  unfold sddc_new, model_switch, settings_valid.
  destruct (_ || _); [|destruct (_ =? HW_RX888R2);
                        [|destruct (_ =? HW_HF103)]];
    split; reflexivity.
Qed.

(** X20. The stored HF attenuation and VGA gain index always pass the
    validation of their own setters: this holds on every handle
    [sddc_open] returns, and every operation keeps it, so no sequence of
    calls leaves the handle with a setting its setter would refuse. *)
Theorem settings_stay_valid this w :
  (forall index imagefile w0,
     fst (sddc_open index imagefile w0) = Some this -> settings_valid this) /\
  (settings_valid this ->
   (forall mode,
      settings_valid (snd (fst (sddc_set_rf_mode this mode w)))) /\
   (forall attenuation,
      settings_valid
        (snd (fst (sddc_set_hf_attenuation this attenuation w)))) /\
   (forall idx,
      settings_valid (snd (fst (sddc_set_hf_vga_gain this idx w)))) /\
   (forall frequency,
      settings_valid
        (snd (fst (sddc_set_tuner_frequency this frequency w)))) /\
   (forall attenuation,
      settings_valid
        (snd (fst (sddc_set_tuner_rf_attenuation this attenuation w)))) /\
   (forall attenuation,
      settings_valid
        (snd (fst (sddc_set_tuner_if_attenuation this attenuation w)))) /\
   (forall sample_rate,
      settings_valid (snd (sddc_set_sample_rate this sample_rate))) /\
   (forall frame_size num_frames callback callback_context,
      settings_valid
        (snd (fst (sddc_set_async_params this frame_size num_frames
                     callback callback_context w)))) /\
   settings_valid (snd (fst (sddc_start_streaming this w))) /\
   settings_valid (snd (fst (sddc_stop_streaming this w))) /\
   (forall correction,
      settings_valid
        (snd (fst (sddc_set_frequency_correction this correction w))))).
Proof.
  split.
  { intros index imagefile w0 H.
    destruct (sddc_open index imagefile w0) as [r w0'] eqn:E. cbn in H.
    subst r. apply sddc_open_some in E as (dev & data & _ & ->).
    apply settings_valid_new. }
  intros Hv.
  destruct (settings_valid_set this Hv) as (Hst & Hrf & Hsm & Hsr & Htf & Hfc).
  split_conj.
  - intros mode. pose proof (sddc_set_rf_mode_handle this mode w) as H.
    pose proof (set_rf_mode_vhf_without_tuner_handle this w) as Hn.
    destruct mode;
      destruct (sddc_set_rf_mode this _ w) as [[ret this'] w'];
      cbn in Hn |- *; destruct H as (_ & Hhf & Hvhf & Hno).
    + destruct Hno as (_ & -> & _); auto.
    + destruct Hhf as (-> & _); auto.
    + destruct (Z.eq_dec (has_vhf_tuner this) 0) as [E|N].
      * rewrite (Hn E). auto.
      * destruct Hvhf as (-> & _); auto.
  - intros a. pose proof (set_hf_attenuation_by_validation this a) as H.
    destruct (attenuation_accepted (hf_attenuator_levels this) a) eqn:Ea.
    + destruct H as [H|(c & _ & H)]; rewrite H; cbn; [exact Hv|].
      destruct Hv as [_ Hg]. split; [exact Ea|exact Hg].
    + destruct (H w) as [-> _]. exact Hv.
  - intros i. pose proof (set_hf_vga_gain_by_validation this i) as H.
    destruct (gain_accepted (hf_vga_levels this) i) eqn:Ei.
    + destruct H as [H|(c & _ & H)]; rewrite H; cbn; [exact Hv|].
      destruct Hv as [Ha _]. split; [exact Ha|exact Ei].
    + destruct (H w) as [-> _]. exact Hv.
  - intros f. unfold sddc_set_tuner_frequency. run.
    destruct (_ <? 0); cbn; auto.
  - intros a. unfold sddc_set_tuner_rf_attenuation. run.
    destruct (_ <? 0); cbn; auto.
  - intros a. unfold sddc_set_tuner_if_attenuation. run.
    destruct (_ <? 0); cbn; auto.
  - intros r. cbn. auto.
  - intros fs nf cb ctx. unfold sddc_set_async_params.
    destruct (negb _); run; [auto|]. destruct (_ =? 0); cbn; auto.
  - destruct (SDDCStatus_eqb (status this) SDDC_STATUS_READY) eqn:E.
    + apply SDDCStatus_eqb_eq in E.
      pose proof (start_follows_plan this w E) as H.
      destruct (sddc_start_streaming this w) as [[ret this'] w']. cbn.
      destruct H as [(_ & -> & _)|(_ & -> & _)]; auto.
    + unfold sddc_start_streaming. rewrite E. run. auto.
  - destruct (SDDCStatus_eqb (status this) SDDC_STATUS_STREAMING) eqn:E.
    + apply SDDCStatus_eqb_eq in E.
      pose proof (stop_follows_plan this w E) as H.
      destruct (sddc_stop_streaming this w) as [[ret this'] w']. cbn.
      destruct H as [(_ & -> & _)|(_ & -> & _)]; auto.
    + unfold sddc_stop_streaming. rewrite E. run. auto.
  - intros c. unfold sddc_set_frequency_correction.
    destruct (SDDCStatus_eqb _ _); run; auto.
Qed.

Lemma all_succeed_app h cs1 cs2 :
  all_succeed env h (cs1 ++ cs2) =
  all_succeed env h cs1 && all_succeed env (h ++ cs1) cs2.
Proof.
  revert h. induction cs1 as [|c cs1 IH]; intros h; cbn.
  - now rewrite app_nil_r.
  - rewrite IH, <- app_assoc. cbn. now rewrite andb_assoc.
Qed.

Ltac succeed_or_fail :=
  repeat match goal with
  | H : checked ?c = true |- context [checked ?c] => rewrite H
  | H : ?r < 0 |- context [0 <=? ?r] =>
      rewrite (proj2 (Z.leb_gt 0 r) H)
  | H : 0 <= ?r |- context [0 <=? ?r] =>
      rewrite (proj2 (Z.leb_le 0 r) H)
  end; cbn; auto.

(** X21. On a handle whose stored settings are valid (every handle that
    came out of [sddc_open] and the operations above),
    [sddc_set_rf_mode(HF_MODE)] is never stopped by a validation: it
    returns 0 exactly when every call it made succeeded, [-1] exactly when
    one of them failed, and the handle it returns is the old one with
    [rf_mode] set to [HF_MODE]. *)
Theorem set_rf_mode_hf_restores this w :
  settings_valid this ->
  let '(ret, this', w') := sddc_set_rf_mode this HF_MODE w in
  this' = set_rf_mode HF_MODE this /\
  exists cs,
    trace w' = trace w ++ cs /\
    (ret = 0 /\ all_succeed env (trace w) cs = true \/
     ret = -1 /\ all_succeed env (trace w) cs = false).
Proof.
  intros Hv.
  assert (Hv1 : settings_valid (set_rf_mode HF_MODE this))
    by (now apply settings_valid_set).
  pose proof (set_hf_attenuation_by_validation (set_rf_mode HF_MODE this)
                (hf_attenuation (set_rf_mode HF_MODE this))) as Ha.
  pose proof (set_hf_vga_gain_by_validation (set_rf_mode HF_MODE this)
                (hf_vga_gain (set_rf_mode HF_MODE this))) as Hg.
  destruct Hv1 as [Hva Hvg]. rewrite Hva in Ha. rewrite Hvg in Hg.
  unfold sddc_set_rf_mode.
  set (this1 := set_rf_mode HF_MODE this) in *.
  unfold bind at 1. unfold extern at 1.
  set (standby :=
         usb_device_control (usb_device this1) R82XXSTDBY 0 0 no_data).
  destruct (Z.ltb_spec (returns env (trace w) standby) 0) as [E1|E1].
  { run. split; [reflexivity|]. exists [standby]. split; [reflexivity|].
    right. split; [reflexivity|]. cbn. succeed_or_fail. }
  unfold bind at 1.
  assert (Hvga : forall w2 cs2,
    trace w2 = trace w ++ cs2 -> all_succeed env (trace w) cs2 = true ->
    let '(ret, this', w') :=
      (if hf_vga_levels this1 >? 0 then
         '(ret, this) <-
           sddc_set_hf_vga_gain this1 (hf_vga_gain this1) ;;
         if ret <? 0 then
           fprintf_stderr "ERROR - sddc_set_hf_vga_gain() failed\n" [] ;;
           pure (-1, this)
         else pure (0, this)
       else pure (0, this1)) w2 in
    this' = this1 /\
    exists cs,
      trace w' = trace w ++ cs /\
      (ret = 0 /\ all_succeed env (trace w) cs = true \/
       ret = -1 /\ all_succeed env (trace w) cs = false)).
  { intros w2 cs2 Ht Hok.
    destruct (hf_vga_levels this1 >? 0).
    2:{ run. split; [reflexivity|]. exists cs2. auto. }
    unfold bind at 1.
    destruct Hg as [Hg|(c & Hc & Hg)]; rewrite Hg.
    - run. split; [reflexivity|]. exists cs2. auto.
    - rewrite set_hf_vga_gain_same.
      destruct (Z.ltb_spec (returns env (trace w2) c) 0) as [E|E]; run;
        (split; [reflexivity|]); exists (cs2 ++ [c]);
        (split; [rewrite Ht, <- app_assoc; reflexivity|]);
        rewrite all_succeed_app, Hok, <- Ht; cbn; succeed_or_fail. }
  destruct Ha as [Ha|(c & Hc & Ha)]; rewrite Ha.
  - cbn [Z.ltb Z.compare]. cbv iota.
    apply (Hvga _ [standby]); [reflexivity|]. cbn. succeed_or_fail.
  - rewrite set_hf_attenuation_same. cbn [trace stderr].
    destruct (Z.ltb_spec (returns env (trace w ++ [standby]) c) 0) as [E|E].
    + run. split; [reflexivity|]. exists [standby; c].
      split; [rewrite <- app_assoc; reflexivity|].
      right. split; [reflexivity|]. cbn. succeed_or_fail.
    + apply (Hvga _ [standby; c]);
        [cbn; rewrite <- app_assoc; reflexivity|]. cbn. succeed_or_fail.
Qed.

End Libsddc.

(** * The theorems at sample devices *)

(** ** Opening *)

Lemma open_gives_ready_hf_witness :
  let r := sddc_open (device 0 [77; 1; 2; 0]) 0 "SDDC_FX3.img" boot in
  r = (Some unknown_radio, snd r) /\
  (sddc_get_status unknown_radio = SDDC_STATUS_READY /\
   sddc_get_rf_mode unknown_radio = HF_MODE /\
   sddc_get_rf_mode unknown_radio <> NO_RF_MODE).
Proof.
  split; [reflexivity|].
  apply (open_gives_ready_hf (device 0 [77; 1; 2; 0]) 0 "SDDC_FX3.img" boot
           unknown_radio
           (snd (sddc_open (device 0 [77; 1; 2; 0]) 0 "SDDC_FX3.img" boot))).
  reflexivity.
Defined.

Lemma open_defaults_witness :
  let r := sddc_open (device 0 [HW_RX888R2; 1; 2; 0]) 0 "SDDC_FX3.img" boot in
  r = (Some rx888r2, snd r) /\
  (sample_rate rx888r2 = 64e6%float /\
   sddc_get_tuner_frequency rx888r2 = 999e3%float /\
   sddc_get_hf_attenuation rx888r2 = 0%float /\
   hf_vga_gain rx888r2 = 0x25 /\ 0 < hf_vga_gain rx888r2 < 127 /\
   sddc_get_frequency_correction rx888r2 = 0%float /\
   tuner_clock rx888r2 = 0%float).
Proof.
  split; [reflexivity|].
  apply (open_defaults (device 0 [HW_RX888R2; 1; 2; 0]) 0 "SDDC_FX3.img" boot
           rx888r2
           (snd (sddc_open (device 0 [HW_RX888R2; 1; 2; 0]) 0 "SDDC_FX3.img"
                   boot))).
  reflexivity.
Defined.

(** A device that does not answer the identification gives no handle, and
    the transport is closed again. *)
Example open_fails_without_identification :
  sddc_open (device (-1) []) 0 "SDDC_FX3.img" boot =
  (None,
   mk_world
     [usb_device_open 0 "SDDC_FX3.img" 0;
      usb_device_control 0x1000 TESTFX3 0 0 (read_into 4);
      usb_device_close 0x1000]
     [mk_message "ERROR - usb_device_control(TESTFX3) failed\n" []]).
Proof. reflexivity. Qed.

(** ** RF mode *)

Lemma set_rf_mode_vhf_without_tuner_witness :
  has_vhf_tuner hf103 = 0 /\
  (let '(ret, this', w') :=
     sddc_set_rf_mode (device 0 []) least_value hf103 VHF_MODE boot in
   ret = -1 /\ this' = hf103 /\
   sddc_get_rf_mode this' = sddc_get_rf_mode hf103 /\
   trace w' = trace boot /\
   stderr w' =
     stderr boot ++ [mk_message "WARNING - no VHF/UHF tuner found\n" []]).
Proof.
  split; [reflexivity|].
  apply (set_rf_mode_vhf_without_tuner (device 0 []) least_value hf103 boot).
  reflexivity.
Defined.

(** With a tuner the same request goes to the hardware. *)
Example set_rf_mode_vhf_with_tuner :
  let '(ret, this', w') :=
    sddc_set_rf_mode (device 0 []) least_value rx888 VHF_MODE boot in
  ret = 0 /\ sddc_get_rf_mode this' = VHF_MODE /\
  trace w' =
    [usb_device_gpio_set 0x1000 0 0x6000;
     usb_device_control 0x1000 R82XXINIT 0 0 (bytes_of_uint32 0)].
Proof. vm_compute. repeat split. Qed.

(** ** Setters without the hardware *)

Lemma setters_without_hardware_succeed_witness :
  (hf_attenuator_levels unknown_radio = 0 /\
   sddc_set_hf_attenuation (device (-1) []) least_value unknown_radio 12.5
     boot = (0, unknown_radio, boot)) /\
  (hf_vga_levels unknown_radio = 0 /\
   sddc_set_hf_vga_gain (device (-1) []) unknown_radio 500 boot =
   (0, unknown_radio, boot)).
Proof.
  destruct (setters_without_hardware_succeed (device (-1) []) least_value
              unknown_radio boot) as (Hatt & Hvga & _).
  split; (split; [reflexivity|]).
  - apply Hatt. reflexivity.
  - apply Hvga. reflexivity.
Defined.

(** ** Frequency correction *)

Lemma set_frequency_correction_spec_witness :
  (status (set_status SDDC_STATUS_STREAMING rx888) = SDDC_STATUS_STREAMING /\
   let '(ret, this', w') :=
     sddc_set_frequency_correction (set_status SDDC_STATUS_STREAMING rx888)
       1.5 boot in
   ret = -1 /\ this' = set_status SDDC_STATUS_STREAMING rx888 /\
   trace w' = trace boot) /\
  (status rx888 <> SDDC_STATUS_STREAMING /\
   let '(ret, this', w') := sddc_set_frequency_correction rx888 1.5 boot in
   ret = 0 /\ sddc_get_frequency_correction this' = 1.5%float /\
   this' = set_freq_corr_ppm 1.5 rx888 /\ w' = boot).
Proof.
  split.
  - split; [reflexivity|].
    apply (set_frequency_correction_spec
             (set_status SDDC_STATUS_STREAMING rx888) 1.5 boot).
    reflexivity.
  - split; [discriminate|].
    apply (set_frequency_correction_spec rx888 1.5 boot).
    discriminate.
Defined.

(** ** Streaming *)

Lemma streaming_status_transitions_witness :
  (status rx888 = SDDC_STATUS_READY /\
   let '(ret, this', w') :=
     sddc_start_streaming producer_stuck least_value rx888 boot in
   ret = -1 /\ this' = rx888 /\
   sddc_get_status this' = SDDC_STATUS_READY /\
   trace w' =
     [usb_device_control 0x1000 STARTADC 0 0 (bytes_of_uint32 64000000);
      usb_device_control 0x1000 STARTFX3 0 0 no_data]) /\
  (status rx888 = SDDC_STATUS_READY /\
   let '(ret, this', w') :=
     sddc_start_streaming (device 0 []) least_value rx888 boot in
   ret = 0 /\ sddc_get_status this' = SDDC_STATUS_STREAMING /\
   trace w' = start_plan least_value rx888) /\
  (status rx888 <> SDDC_STATUS_STREAMING /\
   let '(ret, this', w') := sddc_stop_streaming producer_stuck rx888 boot in
   ret = -1 /\ this' = rx888 /\ trace w' = trace boot).
Proof.
  destruct (streaming_status_transitions producer_stuck least_value rx888
              boot) as (_ & Hstop & Hstuck & _).
  destruct (streaming_status_transitions (device 0 []) least_value rx888
              boot) as (_ & _ & Hok & _).
  specialize (Hstuck eq_refl). specialize (Hok eq_refl).
  split; [|split]; (split; [try reflexivity; discriminate|]).
  - destruct (sddc_start_streaming producer_stuck least_value rx888 boot)
      as [[ret this'] w'] eqn:E.
    vm_compute in E. injection E as <- <- <-.
    destruct Hstuck as [(Hr & _)|(Hr & Ht & Hs & _)]; [discriminate Hr|].
    repeat split.
  - destruct (sddc_start_streaming (device 0 []) least_value rx888 boot)
      as [[ret this'] w'] eqn:E.
    vm_compute in E. injection E as <- <- <-.
    destruct Hok as [(Hr & _ & Hs & Ht & _)|(Hr & _)]; [|discriminate Hr].
    repeat split.
  - apply Hstop. discriminate.
Defined.

(** A start and a stop on a working transport: READY, STREAMING, READY. *)
Example start_then_stop :
  let '(ret1, this1, w1) :=
    sddc_start_streaming (device 0 []) least_value rx888 boot in
  let '(ret2, this2, w2) := sddc_stop_streaming (device 0 []) this1 w1 in
  ret1 = 0 /\ status this1 = SDDC_STATUS_STREAMING /\
  ret2 = 0 /\ status this2 = SDDC_STATUS_READY /\
  trace w2 =
    [usb_device_control 0x1000 STARTADC 0 0 (bytes_of_uint32 64000000);
     usb_device_control 0x1000 STARTFX3 0 0 no_data;
     usb_device_control 0x1000 STOPFX3 0 0 no_data;
     usb_device_gpio_on 0x1000 GPIO_ADC_SHDN].
Proof. vm_compute. repeat split. Qed.

(** With an asynchronous session configured and the VHF path selected, the
    session and the tuner take part in both sequences. *)
Example start_then_stop_vhf_with_session :
  let '(_, this0, w0) :=
    sddc_set_async_params (device 0 []) rx888 0 0 0x3000 0 boot in
  let '(_, this1, w1) :=
    sddc_set_rf_mode (device 0 []) least_value this0 VHF_MODE w0 in
  let '(ret2, this2, w2) :=
    sddc_start_streaming (device 0 []) least_value this1 w1 in
  let '(ret3, this3, w3) := sddc_stop_streaming (device 0 []) this2 w2 in
  streaming this0 = 0x2000 /\
  ret2 = 0 /\ status this2 = SDDC_STATUS_STREAMING /\
  ret3 = 0 /\ status this3 = SDDC_STATUS_READY /\
  trace w3 =
    [streaming_open_async 0x1000 0 0 0x3000 0;
     usb_device_gpio_set 0x1000 0 0x6000;
     usb_device_control 0x1000 R82XXINIT 0 0 (bytes_of_uint32 0);
     usb_device_control 0x1000 STARTADC 0 0 (bytes_of_uint32 64000000);
     usb_device_control 0x1000 R82XXINIT 0 0 (bytes_of_uint32 32000000);
     streaming_set_sample_rate 0x2000 64000000;
     streaming_start 0x2000;
     usb_device_control 0x1000 STARTFX3 0 0 no_data;
     usb_device_control 0x1000 STOPFX3 0 0 no_data;
     streaming_stop 0x2000;
     streaming_close 0x2000;
     usb_device_control 0x1000 R82XXSTDBY 0 0 no_data;
     usb_device_gpio_on 0x1000 GPIO_ADC_SHDN].
Proof. vm_compute. repeat split. Qed.

(** The producer does not start: [-1], status still READY, the ADC started
    all the same. *)
Example start_with_stuck_producer :
  let '(ret, this', w') :=
    sddc_start_streaming producer_stuck least_value rx888 boot in
  ret = -1 /\ status this' = SDDC_STATUS_READY /\
  trace w' =
    [usb_device_control 0x1000 STARTADC 0 0 (bytes_of_uint32 64000000);
     usb_device_control 0x1000 STARTFX3 0 0 no_data].
Proof. vm_compute. repeat split. Qed.

(** ** Tuner attenuation *)

Lemma set_tuner_rf_attenuation_nearest_witness :
  let '(ret, this', w') :=
    sddc_set_tuner_rf_attenuation (device 0 []) rx888 5.0 boot in
  trace w' = [usb_device_set_fw_register 0x1000 FW_REG_R82XX_ATTENUATOR 4] /\
  ret = 0 /\
  stderr w' =
    [mk_message "INFO - RF tuner attenuation set to %.1f\n"
       [arg_double 3.7]].
Proof.
  destruct (set_tuner_rf_attenuation_nearest (device 0 []) rx888 5.0 boot)
    as (_ & _ & _ & _ & Hrun & _ & _).
  destruct (sddc_set_tuner_rf_attenuation (device 0 []) rx888 5.0 boot)
    as [[ret this'] w'].
  destruct Hrun as (Htrace & Hok & _).
  destruct Hok as [Hret Herr]; [cbn; lia|].
  repeat split; assumption.
Defined.

(** A request halfway between the first two entries goes to the first. *)
Example rf_attenuation_tie_goes_to_lower_index :
  (distance tuner_rf_attenuations_table 0.45 0 =?
   distance tuner_rf_attenuations_table 0.45 1)%float = true /\
  attenuation_index tuner_rf_attenuations_table 0.45 = 0.
Proof. vm_compute. split; reflexivity. Qed.

Example if_attenuation_examples :
  attenuation_index tuner_if_attenuations_table 10 = 5 /\
  attenuation_index tuner_if_attenuations_table (-100) = 0 /\
  attenuation_index tuner_if_attenuations_table 100 = 15.
Proof. vm_compute. repeat split. Qed.

(** ** HF attenuation *)

(** 10.5 dB on a 3-level attenuator: accepted as 10 dB, stored as 10.5. *)
Lemma set_hf_attenuation_3_levels_witness :
  hf_attenuator_levels rx888 = 3 /\
  to_int least_value 10.5 = 10 /\
  (let '(ret, this', w') :=
     sddc_set_hf_attenuation (device 0 []) least_value rx888 10.5 boot in
   ret = 0 /\ this' = set_hf_attenuation 10.5 rx888 /\
   trace w' = [usb_device_gpio_set 0x1000 0x6000 0x6000]).
Proof.
  pose proof (set_hf_attenuation_3_levels (device 0 []) least_value rx888
                10.5 boot eq_refl) as H.
  cbv zeta in H.
  destruct (sddc_set_hf_attenuation (device 0 []) least_value rx888 10.5 boot)
    as [[ret this'] w'].
  destruct H as (Hacc & _ & Hint & _).
  assert (Hk : to_int least_value 10.5 = 10).
  { apply Hint; [reflexivity|lia]. }
  split; [reflexivity|]. split; [exact Hk|].
  destruct Hacc as (bp & Hbp & Hthis & _ & Htrace & Hret).
  { rewrite Hk. cbn. auto. }
  rewrite Hk in Hbp.
  destruct Hbp as [[E _]|[[_ ->]|[E _]]]; try discriminate E.
  repeat split; assumption.
Defined.

(** C3 as stated fails: 10.5 is none of 0, 10 and 20, yet a 3-level
    attenuator accepts it and the stored attenuation changes. *)
Lemma set_hf_attenuation_3_levels_accepts_10_5 :
  hf_attenuator_levels rx888 = 3 /\
  (10.5 =? 0)%float = false /\ (10.5 =? 10)%float = false /\
  (10.5 =? 20)%float = false /\
  (let '(ret, this', w') :=
     sddc_set_hf_attenuation (device 0 []) least_value rx888 10.5 boot in
   ret = 0 /\ ret <> -1 /\
   sddc_get_hf_attenuation this' = 10.5%float /\
   (sddc_get_hf_attenuation this' =? sddc_get_hf_attenuation rx888)%float
     = false /\
   trace w' = [usb_device_gpio_set 0x1000 0x6000 0x6000]).
Proof. vm_compute. repeat split; discriminate. Qed.

(** The values 0, 10 and 20 themselves, and their three patterns. *)
Example set_hf_attenuation_3_levels_patterns :
  trace (snd (sddc_set_hf_attenuation (device 0 []) least_value rx888 0 boot))
    = [usb_device_gpio_set 0x1000 0x4000 0x6000] /\
  trace (snd (sddc_set_hf_attenuation (device 0 []) least_value rx888 10 boot))
    = [usb_device_gpio_set 0x1000 0x6000 0x6000] /\
  trace (snd (sddc_set_hf_attenuation (device 0 []) least_value rx888 20 boot))
    = [usb_device_gpio_set 0x1000 0x2000 0x6000] /\
  sddc_set_hf_attenuation (device 0 []) least_value rx888 30 boot =
    (-1, rx888,
     mk_world []
       [mk_message "ERROR - invalid HF attenuation: %lf\n" [arg_double 30]]).
Proof. vm_compute. repeat split. Qed.

(** 0.4 dB on a 64-level attenuator: accepted, and 0 is written. *)
Lemma set_hf_attenuation_64_levels_witness :
  hf_attenuator_levels rx888r2 = 64 /\
  ((0 <=? 0.4)%float = true /\ (0.4 <=? 31.5)%float = true) /\
  (let '(ret, this', w') :=
     sddc_set_hf_attenuation (device 0 []) least_value rx888r2 0.4 boot in
   this' = set_hf_attenuation 0.4 rx888r2 /\
   trace w' = [usb_device_set_fw_register 0x1000 FW_REG_DAT31_ATT 0] /\
   ret = 0).
Proof.
  pose proof (set_hf_attenuation_64_levels (device 0 []) least_value rx888r2
                0.4 boot eq_refl) as H.
  cbv zeta in H.
  destruct (sddc_set_hf_attenuation (device 0 []) least_value rx888r2 0.4
              boot) as [[ret this'] w'].
  destruct H as (Hacc & _).
  split; [reflexivity|]. split; [split; reflexivity|].
  apply Hacc. split; reflexivity.
Defined.

(** C7 as stated fails: for 0.4 dB the nearest integer to 0.8 is 1, and
    the register receives 0. *)
Lemma set_hf_attenuation_64_levels_truncates :
  hf_attenuator_levels rx888r2 = 64 /\
  (0 <=? 0.4)%float = true /\ (0.4 <=? 31.5)%float = true /\
  spec_pe4312_att 0.4 = Some 1 /\
  trace (snd (sddc_set_hf_attenuation (device 0 []) least_value rx888r2 0.4
                boot)) =
    [usb_device_set_fw_register 0x1000 FW_REG_DAT31_ATT 0] /\
  Some 0 <> spec_pe4312_att 0.4.
Proof. vm_compute. repeat split; discriminate. Qed.

(** On the half-decibel grid the two agree; a NaN compares neither below
    0.0 nor above 31.5 and is let through. *)
Example set_hf_attenuation_64_levels_examples :
  trace (snd (sddc_set_hf_attenuation (device 0 []) least_value rx888r2 31.5
                boot)) =
    [usb_device_set_fw_register 0x1000 FW_REG_DAT31_ATT 63] /\
  spec_pe4312_att 31.5 = Some 63 /\
  fst (fst (sddc_set_hf_attenuation (device 0 []) least_value rx888r2 32
              boot)) = -1 /\
  fst (fst (sddc_set_hf_attenuation (device 0 []) least_value rx888r2 (-0.5)
              boot)) = -1 /\
  fst (sddc_set_hf_attenuation (device 0 []) least_value rx888r2 nan boot) =
    (0, set_hf_attenuation nan rx888r2).
Proof. vm_compute. repeat split. Qed.

(** ** What the setters store *)

Lemma setters_store_witness :
  (let '(ret, this', w') :=
     sddc_set_tuner_frequency (device 0 []) least_value rx888 100e6 boot in
   ret = 0 /\ sddc_get_tuner_frequency this' = 100e6%float) /\
  (let '(ret, this', w') :=
     sddc_set_tuner_frequency (device (-1) []) least_value rx888 100e6 boot in
   ret = -1 /\ this' = rx888).
Proof.
  destruct (setters_store (device 0 []) least_value rx888 boot)
    as (_ & _ & Hok & _).
  destruct (setters_store (device (-1) []) least_value rx888 boot)
    as (_ & _ & Hko & _).
  specialize (Hok 100e6%float). specialize (Hko 100e6%float).
  cbv zeta in Hok, Hko.
  split.
  - destruct (sddc_set_tuner_frequency (device 0 []) least_value rx888 100e6
                boot) as [[ret this'] w'].
    destruct Hok as (_ & Hgood & _).
    destruct Hgood as (? & ? & ?); [cbn; lia|auto].
  - destruct (sddc_set_tuner_frequency (device (-1) []) least_value rx888
                100e6 boot) as [[ret this'] w'].
    destruct Hko as (_ & _ & Hbad).
    apply Hbad. cbn. lia.
Defined.

(** C5 as stated fails for the tuner RF attenuation: the write of 5.0 dB
    succeeds, and no field of the handle holds 5.0 afterwards; the handle is
    what it was, its [tuner_attenuation] still 0, and the register holds the
    index 4. *)
Lemma tuner_rf_attenuation_not_persisted :
  let '(ret, this', w') :=
    sddc_set_tuner_rf_attenuation (device 0 []) rx888 5.0 boot in
  ret = 0 /\ this' = rx888 /\
  tuner_attenuation this' = 0%float /\
  (tuner_attenuation this' =? 5.0)%float = false /\
  trace w' = [usb_device_set_fw_register 0x1000 FW_REG_R82XX_ATTENUATOR 4].
Proof. vm_compute. repeat split. Qed.

(** The attenuation and gain setters store the value before the write, so
    it stays stored when the write fails. *)
Example set_hf_attenuation_stored_before_write :
  let '(ret, this', w') :=
    sddc_set_hf_attenuation (device (-1) []) least_value hf103 12 boot in
  ret = -1 /\ sddc_get_hf_attenuation this' = 12%float /\
  trace w' = [usb_device_set_fw_register 0x1000 FW_REG_DAT31_ATT 12].
Proof. vm_compute. repeat split. Qed.

Example set_hf_vga_gain_examples :
  trace (snd (sddc_set_hf_vga_gain (device 0 []) rx888r2 18 boot)) =
    [usb_device_set_fw_register 0x1000 FW_REG_AD8370_VGA 19] /\
  trace (snd (sddc_set_hf_vga_gain (device 0 []) rx888r2 19 boot)) =
    [usb_device_set_fw_register 0x1000 FW_REG_AD8370_VGA 0x84] /\
  fst (sddc_set_hf_vga_gain (device 0 []) rx888r2 128 boot) = (-1, rx888r2) /\
  hf_vga_gain (snd (fst (sddc_set_hf_vga_gain (device 0 []) rx888r2 100 boot)))
    = 100.
Proof. vm_compute. repeat split. Qed.

(** ** Further theorems at sample devices *)

Lemma start_streaming_fail_fast_witness :
  status rx888 = SDDC_STATUS_READY /\
  fail_fast producer_stuck (start_plan least_value rx888) rx888
    (set_status SDDC_STATUS_STREAMING rx888) boot
    (sddc_start_streaming producer_stuck least_value rx888 boot).
Proof.
  split; [reflexivity|]. apply start_streaming_fail_fast. reflexivity.
Defined.

Lemma stop_streaming_fail_fast_witness :
  status (set_status SDDC_STATUS_STREAMING rx888) = SDDC_STATUS_STREAMING /\
  fail_fast (device 0 [])
    (stop_plan (set_status SDDC_STATUS_STREAMING rx888))
    (set_status SDDC_STATUS_STREAMING rx888)
    (set_status SDDC_STATUS_READY (set_status SDDC_STATUS_STREAMING rx888))
    boot
    (sddc_stop_streaming (device 0 [])
       (set_status SDDC_STATUS_STREAMING rx888) boot).
Proof.
  split; [reflexivity|]. apply stop_streaming_fail_fast. reflexivity.
Defined.

Lemma start_then_stop_restores_witness :
  status rx888 = SDDC_STATUS_READY /\
  (let '(ret1, this1, w1) :=
     sddc_start_streaming (device 0 []) least_value rx888 boot in
   let '(ret2, this2, w2) := sddc_stop_streaming (device 0 []) this1 w1 in
   ret1 = 0 /\ ret2 = 0 /\
   status this1 = SDDC_STATUS_STREAMING /\ this2 = rx888 /\
   trace w2 =
     trace boot ++ start_plan least_value rx888 ++ stop_plan rx888).
Proof.
  pose proof (start_then_stop_restores (device 0 []) least_value rx888 boot
                eq_refl) as H.
  split; [reflexivity|].
  destruct (sddc_start_streaming (device 0 []) least_value rx888 boot)
    as [[ret1 this1] w1] eqn:E1.
  vm_compute in E1. injection E1 as <- <- <-.
  destruct (sddc_stop_streaming (device 0 []) _ _)
    as [[ret2 this2] w2] eqn:E2.
  vm_compute in E2. injection E2 as <- <- <-.
  split; [reflexivity|]. split; [reflexivity|].
  exact (H eq_refl eq_refl).
Defined.

Lemma stop_keeps_closed_session_witness :
  let streaming_rx888 :=
    set_status SDDC_STATUS_STREAMING (set_streaming 0x2000 rx888) in
  status streaming_rx888 = SDDC_STATUS_STREAMING /\
  streaming streaming_rx888 <> 0 /\
  (let '(ret, this', w') :=
     sddc_stop_streaming (device 0 []) streaming_rx888 boot in
   ret = 0 /\
   trace w' =
     [usb_device_control 0x1000 STOPFX3 0 0 no_data;
      streaming_stop 0x2000; streaming_close 0x2000;
      usb_device_gpio_on 0x1000 GPIO_ADC_SHDN] /\
   streaming this' = 0x2000 /\
   fst (fst (sddc_set_async_params (device 0 []) this' 0 0 0x3000 0 w'))
     = -1 /\
   In (streaming_start 0x2000) (start_plan least_value this')).
Proof.
  intros streaming_rx888.
  pose proof (stop_keeps_closed_session (device 0 []) least_value
                streaming_rx888 boot eq_refl) as H.
  split; [reflexivity|]. split; [discriminate|].
  destruct (sddc_stop_streaming (device 0 []) streaming_rx888 boot)
    as [[ret this'] w'] eqn:E.
  vm_compute in E. injection E as <- <- <-.
  destruct H as (_ & Hs & Hp & Hin); [discriminate|reflexivity|].
  split; [reflexivity|]. split; [reflexivity|]. split; [exact Hs|].
  split; [|exact Hin].
  specialize (Hp 0 0 0x3000 0
    (mk_world
       [usb_device_control 0x1000 STOPFX3 0 0 no_data;
        streaming_stop 0x2000; streaming_close 0x2000;
        usb_device_gpio_on 0x1000 GPIO_ADC_SHDN] [])).
  destruct (sddc_set_async_params _ _ _ _ _ _ _) as [[ret2 this2] w2'].
  apply Hp.
Defined.

Lemma correction_frozen_while_streaming_witness :
  status rx888 = SDDC_STATUS_READY /\
  (let '(ret, this1, w1) :=
     sddc_start_streaming (device 0 []) least_value rx888 boot in
   ret = 0 /\
   let '(ret2, this2, w2') := sddc_set_frequency_correction this1 2.5 w1 in
   ret2 = -1 /\ this2 = this1 /\
   sddc_get_frequency_correction this2 =
   sddc_get_frequency_correction rx888).
Proof.
  pose proof (correction_frozen_while_streaming (device 0 []) least_value
                rx888 boot eq_refl) as H.
  split; [reflexivity|].
  destruct (sddc_start_streaming (device 0 []) least_value rx888 boot)
    as [[ret this1] w1] eqn:E.
  vm_compute in E. injection E as <- <- <-.
  split; [reflexivity|]. apply (H eq_refl).
Defined.

Lemma set_rf_mode_vhf_reference_word_witness :
  has_vhf_tuner rx888 <> 0 /\ tuner_clock rx888 = 0%float /\
  finite (1e-6 * freq_corr_ppm (set_freq_corr_ppm 1.5 rx888)) = true /\
  (let '(ret, this', w') :=
     sddc_set_rf_mode (device 0 []) least_value
       (set_freq_corr_ppm 1.5 rx888) VHF_MODE boot in
   ret = 0 /\
   trace w' =
     [usb_device_gpio_set 0x1000 0 0x6000;
      usb_device_control 0x1000 R82XXINIT 0 0 (bytes_of_uint32 0)]).
Proof.
  pose proof (set_rf_mode_vhf_reference_word (device 0 []) least_value
                (set_freq_corr_ppm 1.5 rx888) boot) as H.
  cbv zeta in H.
  split; [discriminate|]. split; [reflexivity|]. split; [reflexivity|].
  destruct (sddc_set_rf_mode (device 0 []) least_value _ VHF_MODE boot)
    as [[ret this'] w'].
  destruct H as (_ & H); [discriminate|reflexivity|reflexivity|].
  destruct H as (Ht & _ & Hr); [cbn; lia|].
  split; [apply Hr; cbn; lia|exact Ht].
Defined.

Lemma start_streaming_uncorrected_witness :
  status rx888 = SDDC_STATUS_READY /\ freq_corr_ppm rx888 = 0%float /\
  finite (sample_rate rx888) = true /\
  fail_fast (device 0 [])
    [usb_device_control 0x1000 STARTADC 0 0 (bytes_of_uint32 64000000);
     usb_device_control 0x1000 STARTFX3 0 0 no_data]
    rx888 (set_status SDDC_STATUS_STREAMING rx888) boot
    (sddc_start_streaming (device 0 []) least_value rx888 boot).
Proof.
  split; [reflexivity|]. split; [reflexivity|]. split; [reflexivity|].
  exact (start_streaming_uncorrected (device 0 []) least_value rx888 boot
           eq_refl eq_refl eq_refl).
Defined.

Lemma led_on_only_led_bits_witness :
  0 <= 5 < 256 /\
  (let '(ret, w') := sddc_led_on (device 0 []) rx888 5 boot in
   trace w' = [usb_device_gpio_on 0x1000 0x1400] /\ ret = 0) /\
  (let '(ret, w') := sddc_led_on (device 0 []) rx888 8 boot in
   ret = -1 /\ trace w' = []).
Proof.
  pose proof (led_on_only_led_bits (device 0 []) rx888 5 boot
                ltac:(lia)) as H5.
  pose proof (led_on_only_led_bits (device 0 []) rx888 8 boot
                ltac:(lia)) as H8.
  cbv zeta in H5, H8.
  split; [lia|]. split.
  - destruct (sddc_led_on (device 0 []) rx888 5 boot) as [ret w'].
    destruct H5 as (H & _). destruct H as (Ht & Hr & _); [lia|].
    split; [exact Ht|exact Hr].
  - destruct (sddc_led_on (device 0 []) rx888 8 boot) as [ret w'].
    destruct H8 as (_ & H & _). apply H. lia.
Defined.

Lemma set_hf_vga_gain_encoding_witness :
  hf_vga_levels rx888r2 = 127 /\
  (let '(ret, this', w') :=
     sddc_set_hf_vga_gain (device 0 []) rx888r2 100 boot in
   this' = set_hf_vga_gain 100 rx888r2 /\
   trace w' = [usb_device_set_fw_register 0x1000 FW_REG_AD8370_VGA 213] /\
   ret = 0).
Proof.
  pose proof (set_hf_vga_gain_encoding (device 0 []) rx888r2 100 boot
                eq_refl) as H.
  cbv zeta in H. split; [reflexivity|].
  destruct (sddc_set_hf_vga_gain (device 0 []) rx888r2 100 boot)
    as [[ret this'] w'].
  destruct H as (H & _). destruct H as (Hh & Ht & Hr & _); [lia|].
  repeat split; assumption.
Defined.

Lemma open_reads_identification_witness :
  let r := sddc_open (device 0 [HW_RX888R2; 1; 2; 0]) 0 "SDDC_FX3.img" boot in
  r = (Some rx888r2, snd r) /\
  (sddc_get_hw_model rx888r2 = HW_RX888R2 /\
   sddc_get_firmware rx888r2 = 0x0102 /\
   0 <= sddc_get_firmware rx888r2 < 65536 /\
   usb_device rx888r2 = 0x1000).
Proof.
  split; [reflexivity|].
  exact (open_reads_identification (device 0 [HW_RX888R2; 1; 2; 0]) 0
           "SDDC_FX3.img" boot rx888r2 _ eq_refl).
Defined.

Lemma open_capabilities_witness :
  let r := sddc_open (device 0 [HW_HF103; 1; 2; 0]) 0 "SDDC_FX3.img" boot in
  r = (Some hf103, snd r) /\
  In (hf_attenuator_levels hf103) [0; 3; 32; 64] /\
  In (hf_vga_levels hf103) [0; 127] /\
  In (has_vhf_tuner hf103) [0; 1] /\
  has_clock_source hf103 = has_vhf_tuner hf103.
Proof.
  split; [reflexivity|].
  destruct (open_capabilities (device 0 [HW_HF103; 1; 2; 0]) least_value 0
              "SDDC_FX3.img" boot hf103 _ eq_refl)
    as (Ha & Hg & _ & Ht & Hc & _).
  repeat split; assumption.
Defined.

Lemma set_hf_attenuation_32_levels_range_witness :
  hf_attenuator_levels hf103 = 32 /\
  ((0 <=? 12.7)%float = true /\ (12.7 <=? 31)%float = true) /\
  (let '(ret, this', w') :=
     sddc_set_hf_attenuation (device 0 []) least_value hf103 12.7 boot in
   this' = set_hf_attenuation 12.7 hf103 /\
   sddc_get_hf_attenuation this' = 12.7%float /\
   trace w' = [usb_device_set_fw_register 0x1000 FW_REG_DAT31_ATT 12] /\
   ret = 0).
Proof.
  pose proof (set_hf_attenuation_32_levels_range (device 0 []) least_value
                hf103 12.7 boot eq_refl) as H.
  cbv zeta in H.
  split; [reflexivity|]. split; [split; reflexivity|].
  destruct (sddc_set_hf_attenuation (device 0 []) least_value hf103 12.7
              boot) as [[ret this'] w'].
  destruct H as (H & _). apply H. split; reflexivity.
Defined.

Lemma set_rf_mode_hf_restores_witness :
  settings_valid least_value rx888r2 /\
  (let '(ret, this', w') :=
     sddc_set_rf_mode (device 0 []) least_value rx888r2 HF_MODE boot in
   this' = set_rf_mode HF_MODE rx888r2 /\
   exists cs,
     trace w' = trace boot ++ cs /\
     (ret = 0 /\ all_succeed (device 0 []) (trace boot) cs = true \/
      ret = -1 /\ all_succeed (device 0 []) (trace boot) cs = false)).
Proof.
  split; [split; reflexivity|].
  apply set_rf_mode_hf_restores. split; reflexivity.
Defined.

(** The restore on an RX888 mk II: standby, attenuation, gain. *)
Example set_rf_mode_hf_on_rx888r2 :
  let '(ret, this', w') :=
    sddc_set_rf_mode (device 0 []) least_value rx888r2 HF_MODE boot in
  ret = 0 /\
  trace w' =
    [usb_device_control 0x1000 R82XXSTDBY 0 0 no_data;
     usb_device_set_fw_register 0x1000 FW_REG_DAT31_ATT 0;
     usb_device_set_fw_register 0x1000 FW_REG_AD8370_VGA 0x96].
Proof. vm_compute. repeat split. Qed.
